(** * Harbor UI: authentication and account-lifecycle handlers

    A shallow embedding of [src/ui/controllers/base.go] (the
    [CommonController] handlers [Login], [UserExists], [SendResetEmail],
    [ResetPassword], [Oauth] with their helpers [isUserResetable] and
    [createUser]) and of the part of [src/common/dao/user.go] that holds
    [Register] and [UserExists].

    Handlers are state transformers over a request state that holds the
    user table, the session, the response written so far and the mail
    dispatch log.  Whatever the handlers obtain from outside the process
    (configuration, the template file, the SMTP server, the OAuth provider,
    the random generator, the clock, failures of the database) is read from
    a [World] of oracles.

    Left out: the calls to the logger, which write nothing a caller or a
    later request can see, and the construction of the HTTP client that
    [Oauth] hands to the exchange, which cannot fail once the certificate
    pool is loaded. *)

From Stdlib Require Import ZArith String Ascii List Bool Lia.
From stdpp Require Import gmap strings.
Import ListNotations.

Local Open Scope string_scope.
Local Open Scope Z_scope.

(** ** Go values *)

(** A Go [error] is represented by its message. *)
Definition error := string.

(** Result of a collaborator whose value is only read when [err == nil]. *)
Inductive result (A : Type) : Type :=
| Ok (a : A)
| Err (e : error).
Arguments Ok {A} a.
Arguments Err {A} e.

(** ** [regexp.MatchString] on the pattern of [SendResetEmail]

    The pattern is anchored with [^] and [$], so a match is a match of the
    whole input.  Regular expressions are matched by derivatives.  The
    classes of the pattern that exclude characters exclude ASCII characters
    only, and the counted classes are ASCII, so matching bytes agrees
    with matching runes. *)

Inductive regex : Type :=
| re_none
| re_eps
| re_set (p : ascii -> bool)
| re_cat (r s : regex)
| re_alt (r s : regex)
| re_star (r : regex).

Fixpoint re_nullable (r : regex) : bool :=
  match r with
  | re_none => false
  | re_eps => true
  | re_set _ => false
  | re_cat r s => re_nullable r && re_nullable s
  | re_alt r s => re_nullable r || re_nullable s
  | re_star _ => true
  end.

Definition mk_cat (r s : regex) : regex :=
  match r, s with
  | re_none, _ => re_none
  | _, re_none => re_none
  | re_eps, _ => s
  | _, _ => re_cat r s
  end.

Definition mk_alt (r s : regex) : regex :=
  match r, s with
  | re_none, _ => s
  | _, re_none => r
  | _, _ => re_alt r s
  end.

Fixpoint re_deriv (c : ascii) (r : regex) : regex :=
  match r with
  | re_none => re_none
  | re_eps => re_none
  | re_set p => if p c then re_eps else re_none
  | re_cat r s =>
      if re_nullable r
      then mk_alt (mk_cat (re_deriv c r) s) (re_deriv c s)
      else mk_cat (re_deriv c r) s
  | re_alt r s => mk_alt (re_deriv c r) (re_deriv c s)
  | re_star r => mk_cat (re_deriv c r) (re_star r)
  end.

Fixpoint re_match (r : regex) (s : string) : bool :=
  match s with
  | EmptyString => re_nullable r
  | String c s' => re_match (re_deriv c r) s'
  end.

Definition re_plus (r : regex) : regex := re_cat r (re_star r).
Definition re_opt (r : regex) : regex := re_alt re_eps r.
(** [r{1,3}] *)
Definition re_1_3 (r : regex) : regex := re_cat r (re_opt (re_cat r (re_opt r))).
(** [r{2,}] *)
Definition re_2_up (r : regex) : regex := re_cat r (re_cat r (re_star r)).
Definition re_chr (c : ascii) : regex := re_set (Ascii.eqb c).

Definition code_in (lo hi : N) (c : ascii) : bool :=
  let n := N_of_ascii c in (N.leb lo n && N.leb n hi)%bool.

Definition is_digit (c : ascii) : bool := code_in 48 57 c.
Definition is_alpha (c : ascii) : bool := code_in 65 90 c || code_in 97 122 c.

(** [\s] of RE2: tab, newline, form feed, carriage return, space. *)
Definition is_space (c : ascii) : bool :=
  let n := N_of_ascii c in
  (N.eqb n 9 || N.eqb n 10 || N.eqb n 12 || N.eqb n 13 || N.eqb n 32)%bool.

(** The negated class of the local part: anything but angle brackets,
    parentheses, square brackets, backslash, dot, comma, semicolon, colon,
    white space, the at sign and the double quote. *)
Definition is_atom_char (c : ascii) : bool :=
  negb (existsb (Ascii.eqb c)
          ["<"; ">"; "("; ")"; "["; "]"; "\"; "."; ","; ";"; ":"; "@"; "034"]%char
        || is_space c).

(** [.] without the [s] flag: any character but newline. *)
Definition is_dot (c : ascii) : bool := negb (N.eqb (N_of_ascii c) 10).

(** Letters, the hyphen and digits: the class of a domain label. *)
Definition is_label_char (c : ascii) : bool :=
  is_alpha c || Ascii.eqb c "-"%char || is_digit c.

(** Local part: atoms of one or more class characters separated by single
    dots, or one or more arbitrary characters between double quotes. *)
Definition re_local_part : regex :=
  re_alt
    (re_cat (re_plus (re_set is_atom_char))
            (re_star (re_cat (re_chr ".") (re_plus (re_set is_atom_char)))))
    (re_cat (re_chr "034") (re_cat (re_plus (re_set is_dot)) (re_chr "034"))).

(** Domain: four groups of one to three digits separated by dots between
    square brackets, or one or more labels of letters, digits and hyphens,
    each followed by a dot, and then two or more letters. *)
Definition re_domain : regex :=
  let octet := re_1_3 (re_set is_digit) in
  let dot := re_chr "." in
  re_alt
    (re_cat (re_chr "[")
       (re_cat octet (re_cat dot (re_cat octet (re_cat dot
         (re_cat octet (re_cat dot (re_cat octet (re_chr "]")))))))))
    (re_cat (re_plus (re_cat (re_plus (re_set is_label_char)) dot))
            (re_2_up (re_set is_alpha))).

Definition email_pattern : regex :=
  re_cat re_local_part (re_cat (re_chr "@") re_domain).

(** ** [models.User] and the user table *)

Record User : Type := mkUser {
  UserID : Z;
  Username : string;
  Email : string;
  Password : string;
  Realname : string;
  Comment : string;
  HasAdminRole : Z;
  ResetUUID : string;
  Salt : string;
  CreationTime : Z;
  UpdateTime : Z
}.

(** The zero value [models.User{}]. *)
Definition User0 : User := mkUser 0 "" "" "" "" "" 0 "" "" 0 0.

(** [models.User{Email: email}] and [models.User{ResetUUID: token}]. *)
Definition by_email (email : string) : User := mkUser 0 "" email "" "" "" 0 "" "" 0 0.
Definition by_token (token : string) : User := mkUser 0 "" "" "" "" "" 0 token "" 0 0.

(** [models.AuthModel] *)
Record AuthModel : Type := mkAuthModel {
  Principal : string;
  AuthPassword : string
}.

(** The [user] table with its auto-increment counter. *)
Record DB : Type := mkDB {
  user_table : list User;
  last_id : Z
}.

(** ** Request state and the outside world *)

(** Values stored in a beego session. *)
Inductive SessionValue : Type :=
| VInt (n : Z)
| VStr (s : string)
| VBool (b : bool).

(** Arguments of [email_util.Send].  The address is kept as the host and
    port that [net.JoinHostPort] and [strconv.Itoa] put together. *)
Record Mail : Type := mkMail {
  mail_host : string;
  mail_port : Z;
  mail_identity : string;
  mail_username : string;
  mail_password : string;
  mail_timeout : Z;
  mail_ssl : bool;
  mail_insecure : bool;
  mail_from : string;
  mail_to : list string;
  mail_subject : string;
  mail_body : string
}.

(** What a handler wrote to the response before it returned. *)
Inductive Reply : Type :=
| ReplyJSON (b : bool)
| ReplyRedirect (url : string) (status : Z).

Record St : Type := mkSt {
  st_db : DB;
  st_session : gmap string SessionValue;
  st_reply : option Reply;
  st_mail : list Mail;        (* dispatch attempts, oldest first *)
  st_stmts : nat;             (* statements sent to the database so far *)
  st_rand : nat               (* random strings drawn so far *)
}.

Definition set_db (d : DB) (s : St) : St :=
  mkSt d (st_session s) (st_reply s) (st_mail s) (st_stmts s) (st_rand s).
Definition set_session (m : gmap string SessionValue) (s : St) : St :=
  mkSt (st_db s) m (st_reply s) (st_mail s) (st_stmts s) (st_rand s).
Definition set_reply (r : option Reply) (s : St) : St :=
  mkSt (st_db s) (st_session s) r (st_mail s) (st_stmts s) (st_rand s).
Definition set_mail (l : list Mail) (s : St) : St :=
  mkSt (st_db s) (st_session s) (st_reply s) l (st_stmts s) (st_rand s).
Definition set_stmts (n : nat) (s : St) : St :=
  mkSt (st_db s) (st_session s) (st_reply s) (st_mail s) n (st_rand s).
Definition set_rand (n : nat) (s : St) : St :=
  mkSt (st_db s) (st_session s) (st_reply s) (st_mail s) (st_stmts s) n.

(** [template.Template] of the reset mail with the three fields of
    [messageDetail]: [Execute] yields the text or an error. *)
Record messageDetail : Type := mkDetail {
  Hint : string;
  URL : string;
  UUID : string
}.

Definition Template := messageDetail -> result string.

(** [models.Email], the settings returned by [config.Email]. *)
Record EmailSettings : Type := mkEmail {
  em_Host : string;
  em_Port : Z;
  em_Identity : string;
  em_Username : string;
  em_Password : string;
  em_SSL : bool;
  em_Insecure : bool;
  em_From : string
}.

(** The fields of [config.OAuthConf] that [Oauth] reads. *)
Record OAuthConf : Type := mkOAuthConf {
  ClientID : string;
  ClientSecret : string;
  AuthURL : string;
  TokenURL : string
}.

(** Everything a request reads from outside the process. *)
Record World : Type := mkWorld {
  (* the database refuses its n-th statement with this error *)
  w_db_err : nat -> option error;
  (* n-th output of utils.GenerateRandomString *)
  w_random : nat -> string;
  (* time.Now *)
  w_now : Z;
  (* config.AuthMode *)
  w_AuthMode : result string;
  (* template.ParseFiles *)
  w_ParseFiles : string -> result Template;
  (* config.ExtEndpoint *)
  w_ExtEndpoint : result string;
  (* config.Email *)
  w_Email : result EmailSettings;
  (* i18n translation cc.Tr *)
  w_Tr : string -> string;
  (* email_util.Send *)
  w_Send : Mail -> option error;
  (* x509.SystemCertPool *)
  w_SystemCertPool : option error;
  (* config.OAuthConf *)
  w_OAuthConf : result OAuthConf;
  (* oauth2.Config.Exchange: the access token for an authorization code *)
  w_Exchange : OAuthConf -> string -> result string
}.

(** ** jwt-go *)

(** The signing methods jwt-go registers. *)
Inductive SigningMethod : Type :=
| SigningMethodHS256 | SigningMethodHS384 | SigningMethodHS512
| SigningMethodRS256 | SigningMethodRS384 | SigningMethodRS512
| SigningMethodPS256 | SigningMethodPS384 | SigningMethodPS512
| SigningMethodES256 | SigningMethodES384 | SigningMethodES512
| SigningMethodNone.

Global Instance SigningMethod_eq_dec : EqDecision SigningMethod.
Proof. solve_decision. Defined.

(** The two fields of [jwtgo.StandardClaims] that [Oauth] reads. *)
Record StandardClaims : Type := mkClaims {
  Subject : string;
  Issuer : string
}.

Record Token : Type := mkToken {
  Raw : string;
  Method : SigningMethod;
  Claims : StandardClaims
}.

(** ** Code outside this package

    [common.DBAuth] is a constant of package [common]; [utils.Encrypt] is
    the salted one-way hash of package [utils]; the last three are the
    stages of jwt-go's parser: decoding the three segments and looking up
    the method named in the header, checking the time claims, and
    verifying the signature of the raw token under a key. *)
Class Externals : Type := {
  DBAuth : string;
  Encrypt : string -> string -> string;
  jwt_decode : string -> option Token;
  jwt_claims_valid : Z -> StandardClaims -> bool;
  jwt_verify : SigningMethod -> string -> string -> bool
}.

(** ** The two monads of the model *)

(** A data-access function threads the request state. *)
Definition Dao (A : Type) : Type := St -> St * A.

(** [CustomAbort] leaves the handler with a status and a body. *)
Record Abort : Type := mkAbort {
  abort_status : Z;
  abort_body : string
}.

(** A handler threads the request state and either returns or aborts. *)
Definition Handler (A : Type) : Type := St -> St * (Abort + A).

Definition dret {A} (a : A) : Dao A := fun s => (s, a).
Definition dbind {A B} (m : Dao A) (k : A -> Dao B) : Dao B :=
  fun s => let (s', a) := m s in k a s'.

Definition hret {A} (a : A) : Handler A := fun s => (s, inr a).
Definition hbind {A B} (m : Handler A) (k : A -> Handler B) : Handler B :=
  fun s =>
    match m s with
    | (s', inl a) => (s', inl a)
    | (s', inr x) => k x s'
    end.
Definition call {A} (m : Dao A) : Handler A :=
  fun s => let (s', a) := m s in (s', inr a).

Declare Scope dao_scope.
Declare Scope handler_scope.
Delimit Scope dao_scope with dao.
Delimit Scope handler_scope with handler.
Notation "x <- m ;; k" := (dbind m (fun x => k))
  (at level 100, m at next level, right associativity) : dao_scope.
Notation "x <- m ;; k" := (hbind m (fun x => k))
  (at level 100, m at next level, right associativity) : handler_scope.
Notation "m ;; k" := (hbind m (fun _ => k))
  (at level 100, right associativity) : handler_scope.

(** ** HTTP status codes of [net/http] *)

Definition StatusFound : Z := 302.
Definition StatusBadRequest : Z := 400.
Definition StatusUnauthorized : Z := 401.
Definition StatusForbidden : Z := 403.
Definition StatusNotFound : Z := 404.
Definition StatusInternalServerError : Z := 500.

(** [http.StatusText] on the codes above. *)
Definition StatusText (code : Z) : string :=
  if code =? 302 then "Found"
  else if code =? 400 then "Bad Request"
  else if code =? 401 then "Unauthorized"
  else if code =? 403 then "Forbidden"
  else if code =? 404 then "Not Found"
  else if code =? 500 then "Internal Server Error"
  else "".

(** ** beego controller primitives *)

(** The submitted form: [GetString] of a missing key is the empty
    string. *)
Definition Request := list (string * string).

Fixpoint GetString (rq : Request) (key : string) : string :=
  match rq with
  | [] => ""
  | (k, v) :: rq' => if String.eqb k key then v else GetString rq' key
  end.

Definition CustomAbort {A} (status : Z) (body : string) : Handler A :=
  fun s => (s, inl (mkAbort status body)).

Definition SetSession (key : string) (v : SessionValue) : Handler unit :=
  fun s => (set_session (<[key := v]> (st_session s)) s, inr tt).

Definition ServeJSON (b : bool) : Handler unit :=
  fun s => (set_reply (Some (ReplyJSON b)) s, inr tt).

Definition Redirect (url : string) (status : Z) : Handler unit :=
  fun s => (set_reply (Some (ReplyRedirect url status)) s, inr tt).

(** ** Database and generator primitives *)

(** One statement sent to the database; the oracle says whether it is
    refused (lost connection, violated constraint, ...). *)
Definition db_stmt (w : World) : Dao (option error) :=
  fun s => (set_stmts (S (st_stmts s)) s, w_db_err w (st_stmts s)).

(** [QueryRows] of a [select] with the given [where] clause.  The
    comparison [=] of SQL is taken as equality of strings. *)
Definition query_rows (w : World) (cond : User -> bool) : Dao (list User * option error) :=
  (e <- db_stmt w ;;
   fun s =>
     match e with
     | Some err => (s, ([], Some err))
     | None => (s, (List.filter cond (user_table (st_db s)), None))
     end)%dao.

Definition with_UserID (id : Z) (u : User) : User :=
  mkUser id (Username u) (Email u) (Password u) (Realname u) (Comment u)
         (HasAdminRole u) (ResetUUID u) (Salt u) (CreationTime u) (UpdateTime u).

(** [Exec] of an [insert into user]: the row gets the next id, which is
    what [LastInsertId] reports. *)
Definition exec_insert (w : World) (row : User) : Dao (Z * option error) :=
  (e <- db_stmt w ;;
   fun s =>
     match e with
     | Some err => (s, (0, Some err))
     | None =>
         let id := last_id (st_db s) + 1 in
         (set_db (mkDB (user_table (st_db s) ++ [with_UserID id row]) id) s,
          (id, None))
     end)%dao.

(** [Exec] of an [update user set ... where ...]. *)
Definition exec_update (w : World) (cond : User -> bool) (f : User -> User) : Dao (option error) :=
  (e <- db_stmt w ;;
   fun s =>
     match e with
     | Some err => (s, Some err)
     | None =>
         (set_db (mkDB (List.map (fun r => if cond r then f r else r)
                                 (user_table (st_db s)))
                       (last_id (st_db s))) s,
          None)
     end)%dao.

(** [sql.Result.LastInsertId]: the id recorded by [Exec]. *)
Definition LastInsertId (r : Z) : Z * option error := (r, None).

(** Modelled from the spec: [utils.GenerateRandomString] is not in the
    sources at hand; section 4.2 describes it as the generator of random
    strings.  Each call takes the next output of the world's generator. *)
Definition GenerateRandomString (w : World) : Dao string :=
  fun s => (set_rand (S (st_rand s)) s, w_random w (st_rand s)).

(** ** [dao]: the functions of [user.go] at hand *)

Module dao.
Section Code.
Context `{Externals}.

(** [Register]: the insert statement is prepared, a salt is drawn, and the
    row is inserted with [utils.Encrypt(user.Password, salt)] in the
    password column and the salt in the salt column. *)
Definition Register (w : World) (user : User) : Dao (Z * option error) :=
  (perr <- db_stmt w ;;
   match perr with
   | Some err => dret (0, Some err)
   | None =>
       salt <- GenerateRandomString w ;;
       let now := w_now w in
       r <- exec_insert w
              (mkUser 0 (Username user) (Email user)
                      (Encrypt (Password user) salt)
                      (Realname user) (Comment user) (HasAdminRole user)
                      "" salt now now) ;;
       match r with
       | (_, Some err) => dret (0, Some err)
       | (res, None) =>
           match LastInsertId res with
           | (_, Some err) => dret (0, Some err)
           | (userID, None) => dret (userID, None)
           end
       end
   end)%dao.

(** [UserExists]: blank criteria are an error; otherwise the rows are
    counted under the clause the target selects (none for a target other
    than the three named ones). *)
Definition UserExists (w : World) (user : User) (target : string) : Dao (bool * option error) :=
  if String.eqb (Username user) "" && String.eqb (Email user) ""
     && String.eqb (Realname user) ""
  then dret (false, Some "user name, email, and realname are blank")
  else
    let cond : User -> bool :=
      if String.eqb target "username" then fun r => String.eqb (Username r) (Username user)
      else if String.eqb target "email" then fun r => String.eqb (Email r) (Email user)
      else if String.eqb target "realname" then fun r => String.eqb (Realname r) (Realname user)
      else fun _ => true in
    (r <- query_rows w cond ;;
     match r with
     | (_, Some err) => dret (false, Some err)
     | (u, None) =>
         if Nat.eqb (length u) 0 then dret (false, None) else dret (true, None)
     end)%dao.

(** Functions of [dao] that are not in the sources at hand. *)

Definition criterion (q r : string) : bool :=
  String.eqb q "" || String.eqb r q.

(** Modelled from the spec: [dao.GetUser] is missing; it is the
    [lookup(criteria) -> User?] of section 4.1, used by section 4.4 to
    look a user up by email and by reset token.  Every non-empty field
    of the criteria has to match; criteria without any field are refused
    (the InvalidQuery rule of section 4.1). *)
Definition GetUser (w : World) (query : User) : Dao (option User * option error) :=
  if String.eqb (Username query) "" && String.eqb (Email query) ""
     && String.eqb (Realname query) "" && String.eqb (ResetUUID query) ""
  then dret (None, Some "no criteria to look a user up by")
  else
    (r <- query_rows w (fun r =>
            criterion (Username query) (Username r)
            && criterion (Email query) (Email r)
            && criterion (Realname query) (Realname r)
            && criterion (ResetUUID query) (ResetUUID r)) ;;
     match r with
     | (_, Some err) => dret (None, Some err)
     | (rows, None) => dret (List.head rows, None)
     end)%dao.

Definition with_ResetUUID (t : string) (u : User) : User :=
  mkUser (UserID u) (Username u) (Email u) (Password u) (Realname u) (Comment u)
         (HasAdminRole u) t (Salt u) (CreationTime u) (UpdateTime u).

(** Modelled from the spec: [dao.UpdateUserResetUUID] is missing; it is
    the [setResetToken(user)] of section 4.1: the token of the record
    handed over is stored as the reset token of the user with its email
    (section 4.4, Request). *)
Definition UpdateUserResetUUID (w : World) (user : User) : Dao (option error) :=
  exec_update w (fun r => String.eqb (Email r) (Email user))
              (with_ResetUUID (ResetUUID user)).

(** Modelled from the spec: [dao.ResetUserPassword] is missing; it is the
    [resetPassword(user)] of section 4.1.  Section 4.4, Redeem: re-salt
    and re-hash, persist, and clear the token as a single store
    mutation.  The mutation addresses the record by the token it was
    looked up with. *)
Definition ResetUserPassword (w : World) (u : User) : Dao (option error) :=
  (salt <- GenerateRandomString w ;;
   exec_update w (fun r => String.eqb (ResetUUID r) (ResetUUID u))
     (fun r => mkUser (UserID r) (Username r) (Email r)
                      (Encrypt (Password u) salt)
                      (Realname r) (Comment r) (HasAdminRole r)
                      "" salt (CreationTime r) (w_now w)))%dao.

(** Modelled from the spec: [dao.OnBoardUser] is missing; it is the
    [onboard(user)] of section 4.1, an idempotent create-if-absent keyed
    by the onboarding identity field, here the username.  Section 4.5: a
    user with the derived identity is reused, otherwise it is created
    with no local password.  The record handed over is returned as the
    store has it. *)
Definition OnBoardUser (w : World) (u : User) : Dao (User * option error) :=
  (r <- query_rows w (fun r => String.eqb (Username r) (Username u)) ;;
   match r with
   | (_, Some err) => dret (u, Some err)
   | (existing :: _, None) => dret (existing, None)
   | ([], None) =>
       let row := mkUser 0 (Username u) (Email u) "" (Realname u) (Comment u)
                         (HasAdminRole u) "" "" (w_now w) (w_now w) in
       i <- exec_insert w row ;;
       match i with
       | (_, Some err) => dret (u, Some err)
       | (id, None) => dret (with_UserID id row, None)
       end
   end)%dao.

End Code.
End dao.

(** ** [auth] *)

Module auth.
Section Code.
Context `{Externals}.

(** Modelled from the spec: [verify] of section 4.2 recomputes the hash
    and compares it with the stored one. *)
Definition verify (plaintext salt storedHash : string) : bool :=
  String.eqb (Encrypt plaintext salt) storedHash.

(** Modelled from the spec: [auth.Login] is missing; section 4.3: the
    user is looked up by the principal (username or email); when there is
    none, or when the secret does not verify against the stored salt and
    hash, no user is returned. *)
Definition Login (w : World) (m : AuthModel) : Dao (option User * option error) :=
  (r <- query_rows w (fun r => String.eqb (Username r) (Principal m)
                               || String.eqb (Email r) (Principal m)) ;;
   match r with
   | (_, Some err) => dret (None, Some err)
   | ([], None) => dret (None, None)
   | (u :: _, None) =>
       if verify (AuthPassword m) (Salt u) (Password u)
       then dret (Some u, None)
       else dret (None, None)
   end)%dao.

End Code.
End auth.

(** ** [controllers]: the handlers of [base.go] *)

Module controllers.
Section Code.
Context `{Externals}.

(** [Login] *)
Definition Login (w : World) (rq : Request) : Handler unit :=
  (let principal := GetString rq "principal" in
   let password := GetString rq "password" in
   r <- call (auth.Login w (mkAuthModel principal password)) ;;
   match r with
   | (_, Some err) => CustomAbort StatusUnauthorized ""
   | (None, None) => CustomAbort StatusUnauthorized ""
   | (Some user, None) =>
       SetSession "userId" (VInt (UserID user)) ;;
       SetSession "username" (VStr (Username user)) ;;
       SetSession "isSysAdmin" (VBool (HasAdminRole user =? 1))
   end)%handler.

(** [UserExists] *)
Definition UserExists (w : World) (rq : Request) : Handler unit :=
  (let target := GetString rq "target" in
   let value := GetString rq "value" in
   let user :=
     if String.eqb target "username"
     then mkUser 0 value "" "" "" "" 0 "" "" 0 0
     else if String.eqb target "email"
     then mkUser 0 "" value "" "" "" 0 "" "" 0 0
     else User0 in
   r <- call (dao.UserExists w user target) ;;
   match r with
   | (_, Some err) => CustomAbort StatusInternalServerError "Internal error."
   | (exist_, None) => ServeJSON exist_
   end)%handler.

(** [isUserResetable] *)
Definition isUserResetable (w : World) (u : option User) : bool :=
  match u with
  | None => false
  | Some u =>
      match w_AuthMode w with
      | Err _ => false
      | Ok mode => if String.eqb mode DBAuth then true else UserID u =? 1
      end
  end.

(** [email_util.Send]: the attempt is logged, the world answers. *)
Definition Send (w : World) (m : Mail) : Dao (option error) :=
  fun s => (set_mail (st_mail s ++ [m]) s, w_Send w m).

(** [SendResetEmail].  The pattern compiles, so [regexp.MatchString]
    returns no error. *)
Definition SendResetEmail (w : World) (rq : Request) : Handler unit :=
  (let email := GetString rq "email" in
   let valid := re_match email_pattern email in
   if negb valid then CustomAbort StatusBadRequest "invalid email" else
   let queryUser := by_email email in
   r <- call (dao.GetUser w queryUser) ;;
   match r with
   | (_, Some err) => CustomAbort StatusInternalServerError "Internal error."
   | (None, None) => CustomAbort StatusNotFound "email_does_not_exist"
   | (Some u, None) =>
   if negb (isUserResetable w (Some u))
   then CustomAbort StatusForbidden (StatusText StatusForbidden) else
   uuid <- call (GenerateRandomString w) ;;
   let user := mkUser 0 "" email "" "" "" 0 uuid "" 0 0 in
   e <- call (dao.UpdateUserResetUUID w user) ;;
   match e with
   | Some err =>
       CustomAbort StatusInternalServerError (StatusText StatusInternalServerError)
   | None =>
   match w_ParseFiles w "views/reset-password-mail.tpl" with
   | Err err => CustomAbort StatusInternalServerError err
   | Ok messageTemplate =>
   match w_ExtEndpoint w with
   | Err err =>
       CustomAbort StatusInternalServerError (StatusText StatusInternalServerError)
   | Ok harborURL =>
   match messageTemplate (mkDetail (w_Tr w "reset_email_hint") harborURL uuid) with
   | Err err => CustomAbort StatusInternalServerError "internal_error"
   | Ok message =>
   match w_Email w with
   | Err err => CustomAbort StatusInternalServerError "internal_error"
   | Ok settings =>
   e <- call (Send w (mkMail (em_Host settings) (em_Port settings)
                        (em_Identity settings) (em_Username settings)
                        (em_Password settings) 60 (em_SSL settings)
                        (em_Insecure settings) (em_From settings)
                        [email] "Reset Harbor user password" message)) ;;
   match e with
   | Some err => CustomAbort StatusInternalServerError "send_email_failed"
   | None => hret tt
   end end end end end end end)%handler.

Definition with_Password (p : string) (u : User) : User :=
  mkUser (UserID u) (Username u) (Email u) p (Realname u) (Comment u)
         (HasAdminRole u) (ResetUUID u) (Salt u) (CreationTime u) (UpdateTime u).

(** [ResetPassword] *)
Definition ResetPassword (w : World) (rq : Request) : Handler unit :=
  (let resetUUID := GetString rq "reset_uuid" in
   if String.eqb resetUUID "" then CustomAbort StatusBadRequest "Reset uuid is blank." else
   let queryUser := by_token resetUUID in
   r <- call (dao.GetUser w queryUser) ;;
   match r with
   | (_, Some err) => CustomAbort StatusInternalServerError "Internal error."
   | (None, None) => CustomAbort StatusBadRequest "User does not exist"
   | (Some user, None) =>
   if negb (isUserResetable w (Some user))
   then CustomAbort StatusForbidden (StatusText StatusForbidden) else
   let password := GetString rq "password" in
   if negb (String.eqb password "") then
     e <- call (dao.ResetUserPassword w (with_Password password user)) ;;
     match e with
     | Some err => CustomAbort StatusInternalServerError "Internal error."
     | None => hret tt
     end
   else CustomAbort StatusBadRequest "password_is_required"
   end)%handler.

(** [jwtgo.ParseWithClaims]: the segments are decoded, the key function is
    asked for the key, and the token is returned without error only when
    its claims are valid now and its signature verifies under the key. *)
Definition ParseWithClaims (w : World) (tokenString : string)
    (keyFunc : Token -> result string) : result Token :=
  match jwt_decode tokenString with
  | None => Err "token is malformed"
  | Some t =>
      match keyFunc t with
      | Err e => Err e
      | Ok key =>
          if negb (jwt_claims_valid (w_now w) (Claims t)) then Err "token claims are invalid"
          else if negb (jwt_verify (Method t) (Raw t) key) then Err "signature is invalid"
          else Ok t
      end
  end.

(** The key function [Oauth] hands to the parser. *)
Definition oauth_keyFunc (t : Token) : result string :=
  if negb (bool_decide (Method t = SigningMethodHS256))
  then Err "only HS256 signing is supported"
  else Ok "a92d1e15853ff92ad0dd772ee3f2a98564526f7d4e3e2892764dbc066b0e61cd".

(** [createUser] returns either the onboarded user or the error, never
    both and never neither. *)
Definition createUser (w : World) (u : User) : Dao (result User) :=
  (r <- dao.OnBoardUser w u ;;
   match r with
   | (_, Some err) => dret (Err err)
   | (u', None) => dret (Ok u')
   end)%dao.

(** [Oauth]; [cc.Abort(code)] is [CustomAbort] with the code as status
    and as body. *)
Definition Oauth (w : World) (rq : Request) : Handler unit :=
  (match w_SystemCertPool w with
   | Some err => CustomAbort StatusInternalServerError "SSL error"
   | None =>
   match w_OAuthConf w with
   | Err err => CustomAbort StatusInternalServerError "error loading config"
   | Ok cfg =>
   match w_Exchange w cfg (GetString rq "code") with
   | Err err => CustomAbort StatusInternalServerError "error retrieving oauth token"
   | Ok AccessToken =>
   match ParseWithClaims w AccessToken oauth_keyFunc with
   | Err err => CustomAbort StatusInternalServerError "error parsing oauth response"
   | Ok data =>
   r <- call (createUser w
                (mkUser 0 (Subject (Claims data))
                        (Subject (Claims data) ++ "@" ++ Issuer (Claims data))
                        "" "" "" 0 "" "" 0 0)) ;;
   match r with
   | Err err => CustomAbort 500 "500"
   | Ok user =>
       SetSession "userId" (VInt (UserID user)) ;;
       SetSession "username" (VStr (Username user)) ;;
       SetSession "isSysAdmin" (VBool (HasAdminRole user =? 1)) ;;
       Redirect "/harbor" StatusFound
   end end end end end)%handler.

(** [LogOut]: [DestroySession] drops every key of the session. *)
Definition LogOut : Handler unit :=
  fun s => (set_session ∅ s, inr tt).

End Code.
End controllers.

(** ** Vocabulary of the statements *)

(** The session after the three [SetSession] calls that [Login] and
    [Oauth] make for a user. *)
Definition session_of (u : User) (m : gmap string SessionValue) : gmap string SessionValue :=
  <["isSysAdmin" := VBool (HasAdminRole u =? 1)]>
    (<["username" := VStr (Username u)]>
       (<["userId" := VInt (UserID u)]> m)).

(** The mail [SendResetEmail] hands to [email_util.Send]. *)
Definition reset_mail (settings : EmailSettings) (email message : string) : Mail :=
  mkMail (em_Host settings) (em_Port settings) (em_Identity settings)
         (em_Username settings) (em_Password settings) 60 (em_SSL settings)
         (em_Insecure settings) (em_From settings) [email]
         "Reset Harbor user password" message.

(** The table once [token] is the reset token of the rows with [email]. *)
Definition token_stored (email token : string) (rows : list User) : list User :=
  List.map (fun r => if String.eqb (Email r) email
                     then dao.with_ResetUUID token r else r) rows.

(** The column a target of [dao.UserExists] selects, if it selects one. *)
Definition target_field (target : string) : option (User -> string) :=
  if String.eqb target "username" then Some Username
  else if String.eqb target "email" then Some Email
  else if String.eqb target "realname" then Some Realname
  else None.

(** At least one of the three fields [dao.UserExists] inspects is set. *)
Definition not_blank (u : User) : bool :=
  negb (String.eqb (Username u) "" && String.eqb (Email u) ""
        && String.eqb (Realname u) "").

(** The [where] clause [dao.UserExists] builds for a user and a target. *)
Definition where_clause (user : User) (target : string) : User -> bool :=
  match target_field target with
  | Some f => fun r => String.eqb (f r) (f user)
  | None => fun _ => true
  end.

(** The row [dao.Register] inserts for a user under a salt, at an id. *)
Definition registered_row (now id : Z) (hash salt : string) (user : User) : User :=
  mkUser id (Username user) (Email user) hash (Realname user) (Comment user)
         (HasAdminRole user) "" salt now now.

(** The second state has the session, the response and the mail log of
    the first. *)
Definition keeps_front (s s' : St) : Prop :=
  st_session s' = st_session s /\ st_reply s' = st_reply s
  /\ st_mail s' = st_mail s.

(** The key [Oauth] verifies tokens with. *)
Definition oauth_key : string :=
  "a92d1e15853ff92ad0dd772ee3f2a98564526f7d4e3e2892764dbc066b0e61cd".

(** ** Static analyses of a pattern *)

Fixpoint has_char (c : ascii) (s : string) : bool :=
  match s with
  | EmptyString => false
  | String a s' => Ascii.eqb a c || has_char c s'
  end.

Definition all_ascii : list ascii := List.map ascii_of_nat (List.seq 0 256).

(** No class of the pattern accepts [c]. *)
Fixpoint re_avoids (c : ascii) (r : regex) : bool :=
  match r with
  | re_none => true
  | re_eps => true
  | re_set p => negb (p c)
  | re_cat r s => re_avoids c r && re_avoids c s
  | re_alt r s => re_avoids c r && re_avoids c s
  | re_star r => re_avoids c r
  end.

(** Every way through the pattern passes a class that accepts [c] only. *)
Fixpoint re_needs (c : ascii) (r : regex) : bool :=
  match r with
  | re_none => true
  | re_eps => false
  | re_set p => forallb (fun a => implb (p a) (Ascii.eqb a c)) all_ascii
  | re_cat r s => re_needs c r || re_needs c s
  | re_alt r s => re_needs c r && re_needs c s
  | re_star _ => false
  end.

(** The line feed. *)
Definition LF : ascii := "010"%char.

(** ** Fixtures: a concrete world to run the handlers in *)

Definition demo_decode (s : string) : option Token :=
  if String.eqb s "jwt-hs256-alice"
  then Some (mkToken s SigningMethodHS256 (mkClaims "alice" "idp.example.org"))
  else if String.eqb s "jwt-none-alice"
  then Some (mkToken s SigningMethodNone (mkClaims "alice" "idp.example.org"))
  else if String.eqb s "jwt-rs256-alice"
  then Some (mkToken s SigningMethodRS256 (mkClaims "alice" "idp.example.org"))
  else None.

Definition demo_externals : Externals := {|
  DBAuth := "db_auth";
  Encrypt := fun content salt => "pbkdf2(" ++ content ++ "," ++ salt ++ ")";
  jwt_decode := demo_decode;
  jwt_claims_valid := fun _ _ => true;
  jwt_verify := fun _ _ _ => true
|}.

Definition demo_template : Template :=
  fun d => Ok (Hint d ++ " " ++ URL d ++ "/reset_password?reset_uuid=" ++ UUID d).

Definition demo_settings : EmailSettings :=
  mkEmail "smtp.example.org" 25 "" "harbor" "secret" false false "admin@example.org".

Definition demo_conf : OAuthConf :=
  mkOAuthConf "client" "client-secret" "https://idp.example.org/auth"
              "https://idp.example.org/token".

(** A world where every collaborator answers; the authorization code is
    exchanged for an access token of the same name. *)
Definition demo_world : World := {|
  w_db_err := fun _ => None;
  w_random := fun n => nth n ["uuid-0"; "uuid-1"; "uuid-2"; "uuid-3"] "uuid-n";
  w_now := 1500000000;
  w_AuthMode := Ok "db_auth";
  w_ParseFiles := fun _ => Ok demo_template;
  w_ExtEndpoint := Ok "https://harbor.example.org";
  w_Email := Ok demo_settings;
  w_Tr := fun k => k;
  w_Send := fun _ => None;
  w_SystemCertPool := None;
  w_OAuthConf := Ok demo_conf;
  w_Exchange := fun _ code => Ok code
|}.

(** The same world with another authentication mode. *)
Definition ldap_world : World :=
  mkWorld (w_db_err demo_world) (w_random demo_world) (w_now demo_world)
          (Ok "ldap_auth") (w_ParseFiles demo_world) (w_ExtEndpoint demo_world)
          (w_Email demo_world) (w_Tr demo_world) (w_Send demo_world)
          (w_SystemCertPool demo_world) (w_OAuthConf demo_world)
          (w_Exchange demo_world).

(** The same world when the authentication mode cannot be read. *)
Definition no_config_world : World :=
  mkWorld (w_db_err demo_world) (w_random demo_world) (w_now demo_world)
          (Err "failed to get configurations") (w_ParseFiles demo_world)
          (w_ExtEndpoint demo_world)
          (w_Email demo_world) (w_Tr demo_world) (w_Send demo_world)
          (w_SystemCertPool demo_world) (w_OAuthConf demo_world)
          (w_Exchange demo_world).

(** The same world with an SMTP server that refuses every mail. *)
Definition smtp_down_world : World :=
  mkWorld (w_db_err demo_world) (w_random demo_world) (w_now demo_world)
          (w_AuthMode demo_world) (w_ParseFiles demo_world) (w_ExtEndpoint demo_world)
          (w_Email demo_world) (w_Tr demo_world) (fun _ => Some "connection refused")
          (w_SystemCertPool demo_world) (w_OAuthConf demo_world)
          (w_Exchange demo_world).

Definition admin : User :=
  mkUser 1 "admin" "admin@example.org" "pbkdf2(Harbor12345,s1)" "" "" 1 "" "s1" 0 0.
Definition bob : User :=
  mkUser 2 "bob" "bob@example.org" "pbkdf2(hunter2,s2)" "Bob" "" 0 "" "s2" 0 0.

Definition st_of (rows : list User) : St :=
  mkSt (mkDB rows (Z.of_nat (length rows))) ∅ None [] 0 0.

Definition empty_st : St := st_of [].
Definition demo_st : St := st_of [admin; bob].

(** Bob with a reset pending under the token "uuid-0". *)
Definition pending_st : St := st_of [admin; dao.with_ResetUUID "uuid-0" bob].

Definition carol : User := mkUser 0 "carol" "carol@example.org" "pw" "" "" 0 "" "" 0 0.

(** The demo world with another answer of the store to its statements. *)
Definition with_db_err (f : nat -> option error) (w : World) : World :=
  mkWorld f (w_random w) (w_now w) (w_AuthMode w) (w_ParseFiles w)
          (w_ExtEndpoint w) (w_Email w) (w_Tr w) (w_Send w)
          (w_SystemCertPool w) (w_OAuthConf w) (w_Exchange w).

(** The store is down. *)
Definition db_down_world : World :=
  with_db_err (fun _ => Some "connection lost") demo_world.

(** The store refuses its second statement. *)
Definition second_refused_world : World :=
  with_db_err (fun n => if Nat.eqb n 1 then Some "Duplicate entry" else None)
              demo_world.

(** The template of the reset mail is missing. *)
Definition no_template_world : World :=
  mkWorld (w_db_err demo_world) (w_random demo_world) (w_now demo_world)
          (w_AuthMode demo_world)
          (fun _ => Err "open views/reset-password-mail.tpl: no such file")
          (w_ExtEndpoint demo_world)
          (w_Email demo_world) (w_Tr demo_world) (w_Send demo_world)
          (w_SystemCertPool demo_world) (w_OAuthConf demo_world)
          (w_Exchange demo_world).

(** The provider cannot be reached. *)
Definition no_provider_world : World :=
  mkWorld (w_db_err demo_world) (w_random demo_world) (w_now demo_world)
          (w_AuthMode demo_world) (w_ParseFiles demo_world)
          (w_ExtEndpoint demo_world)
          (w_Email demo_world) (w_Tr demo_world) (w_Send demo_world)
          (w_SystemCertPool demo_world) (w_OAuthConf demo_world)
          (fun _ _ => Err "oauth2: cannot fetch token").

(** * Properties *)

(** ** Running the primitives *)

Lemma query_rows_ok (w : World) (cond : User -> bool) (s : St) :
  w_db_err w (st_stmts s) = None ->
  query_rows w cond s =
    (set_stmts (S (st_stmts s)) s, (List.filter cond (user_table (st_db s)), None)).
Proof.
  intros E. unfold query_rows, dbind, db_stmt. rewrite E. reflexivity.
Qed.

Lemma query_rows_err (w : World) (cond : User -> bool) (s : St) (e : error) :
  w_db_err w (st_stmts s) = Some e ->
  query_rows w cond s = (set_stmts (S (st_stmts s)) s, ([], Some e)).
Proof.
  intros E. unfold query_rows, dbind, db_stmt. rewrite E. reflexivity.
Qed.

Lemma exec_update_ok (w : World) (cond : User -> bool) (f : User -> User) (s : St) :
  w_db_err w (st_stmts s) = None ->
  exec_update w cond f s =
    (set_db (mkDB (List.map (fun r => if cond r then f r else r) (user_table (st_db s)))
                  (last_id (st_db s)))
            (set_stmts (S (st_stmts s)) s), None).
Proof.
  intros E. unfold exec_update, dbind, db_stmt. rewrite E. reflexivity.
Qed.

Lemma exec_update_err (w : World) (cond : User -> bool) (f : User -> User) (s : St) (e : error) :
  w_db_err w (st_stmts s) = Some e ->
  exec_update w cond f s = (set_stmts (S (st_stmts s)) s, Some e).
Proof.
  intros E. unfold exec_update, dbind, db_stmt. rewrite E. reflexivity.
Qed.

Lemma exec_insert_ok (w : World) (row : User) (s : St) :
  w_db_err w (st_stmts s) = None ->
  exec_insert w row s =
    (set_db (mkDB (user_table (st_db s) ++ [with_UserID (last_id (st_db s) + 1) row])
                  (last_id (st_db s) + 1))
            (set_stmts (S (st_stmts s)) s),
     (last_id (st_db s) + 1, None)).
Proof.
  intros E. unfold exec_insert, dbind, db_stmt. rewrite E. reflexivity.
Qed.

(** The pattern needs an at sign, so the empty string is no email. *)
Lemma valid_email_not_blank (email : string) :
  re_match email_pattern email = true -> String.eqb email "" = false.
Proof.
  destruct email; [ vm_compute; discriminate | reflexivity ].
Qed.

(** The pattern on a few addresses. *)
Example email_pattern_accepts :
  List.map (re_match email_pattern)
    ["bob@example.org"; "a.b-c@x-1.example.org"; "x@[10.0.0.1]"] = [true; true; true].
Proof. vm_compute. reflexivity. Qed.

Example email_pattern_rejects :
  List.map (re_match email_pattern)
    [""; "bob"; "bob@example"; "bob@example.c"; "a..b@example.org";
     "a b@example.org"; "x@[10.0.0.1234]"; "bob@example.org "] =
    [false; false; false; false; false; false; false; false].
Proof. vm_compute. reflexivity. Qed.

Section Properties.
Context `{Externals}.

(** ** Lookups *)

(** C9. [dao.UserExists] called with a user whose username, email and
    realname are all empty returns the error "user name, email, and
    realname are blank" whatever the target and the table are, without
    sending a statement to the database; it does not answer false with a
    nil error. *)
Theorem UserExists_blank_criteria (w : World) (user : User) (target : string) (st : St) :
  Username user = "" -> Email user = "" -> Realname user = "" ->
  dao.UserExists w user target st =
    (st, (false, Some "user name, email, and realname are blank")).
Proof.
  intros Hu He Hr. unfold dao.UserExists. rewrite Hu, He, Hr. reflexivity.
Qed.

(** C10. The controller's [UserExists] with a target that is neither
    "username" nor "email" hands [dao.UserExists] the zero user, whatever
    the submitted value is: the request is aborted with status 500 and
    body "Internal error.", and neither the response nor anything else of
    the state is written. *)
Theorem UserExists_other_target (w : World) (rq : Request) (st : St) :
  GetString rq "target" <> "username" ->
  GetString rq "target" <> "email" ->
  dao.UserExists w User0 (GetString rq "target") st =
    (st, (false, Some "user name, email, and realname are blank"))
  /\ controllers.UserExists w rq st =
       (st, inl (mkAbort StatusInternalServerError "Internal error.")).
Proof.
  intros Hu He.
  apply String.eqb_neq in Hu. apply String.eqb_neq in He.
  split; [ reflexivity | ].
  unfold controllers.UserExists. rewrite Hu, He. reflexivity.
Qed.

(** ** OAuth: tokens of another algorithm *)

(** C1. When the provider is reached and returns an access token whose
    header names a signing method other than HS256, the key function
    refuses the token and [Oauth] aborts at the parsing step, the
    handler's InvalidToken outcome: status 500 with the body
    "error parsing oauth response".  The state is returned as it was, so
    no session key is set, no user is created or onboarded and no
    statement is sent to the database. *)
Theorem Oauth_rejects_other_algorithm
    (w : World) (rq : Request) (st : St) (cfg : OAuthConf) (tok : string) (t : Token) :
  w_SystemCertPool w = None ->
  w_OAuthConf w = Ok cfg ->
  w_Exchange w cfg (GetString rq "code") = Ok tok ->
  jwt_decode tok = Some t ->
  Method t <> SigningMethodHS256 ->
  controllers.Oauth w rq st =
    (st, inl (mkAbort StatusInternalServerError "error parsing oauth response")).
Proof.
  intros Hpool Hcfg Hex Hdec Hm.
  unfold controllers.Oauth. rewrite Hpool, Hcfg, Hex.
  unfold controllers.ParseWithClaims. rewrite Hdec.
  unfold controllers.oauth_keyFunc.
  rewrite bool_decide_eq_false_2 by exact Hm.
  reflexivity.
Qed.

(** ** Local login *)

(** C2. [Login] with the store answering: when no row has the principal
    as its username or email, and when the first such row does not verify
    the secret, the handler aborts with status 401 and an empty body, and
    the two runs end in the same state and the same response; when the
    row verifies the secret, its id, its username and whether its admin
    flag is 1 are put in the session. *)
Theorem Login_unauthorized_or_session (w : World) (rq : Request) (st : St) :
  w_db_err w (st_stmts st) = None ->
  let principal := GetString rq "principal" in
  let secret := GetString rq "password" in
  let rows := List.filter (fun r => String.eqb (Username r) principal
                                    || String.eqb (Email r) principal)
                          (user_table (st_db st)) in
  let st1 := set_stmts (S (st_stmts st)) st in
  (rows = [] ->
   controllers.Login w rq st = (st1, inl (mkAbort StatusUnauthorized "")))
  /\ (forall u rest, rows = u :: rest ->
      auth.verify secret (Salt u) (Password u) = false ->
      controllers.Login w rq st = (st1, inl (mkAbort StatusUnauthorized "")))
  /\ (forall u rest, rows = u :: rest ->
      auth.verify secret (Salt u) (Password u) = true ->
      controllers.Login w rq st =
        (set_session (session_of u (st_session st)) st1, inr tt)).
Proof.
  intros Hdb principal secret rows st1.
  assert (Hq : query_rows w (fun r => String.eqb (Username r) principal
                                      || String.eqb (Email r) principal) st
               = (st1, (rows, None))) by (apply query_rows_ok; exact Hdb).
  repeat split.
  - intros Hrows.
    unfold controllers.Login, hbind, call, auth.Login, dbind; cbn [Principal AuthPassword].
    fold principal. rewrite Hq, Hrows. reflexivity.
  - intros u rest Hrows Hv.
    unfold controllers.Login, hbind, call, auth.Login, dbind; cbn [Principal AuthPassword].
    fold principal secret. rewrite Hq, Hrows, Hv. reflexivity.
  - intros u rest Hrows Hv.
    unfold controllers.Login, hbind, call, auth.Login, dbind; cbn [Principal AuthPassword].
    fold principal secret. rewrite Hq, Hrows, Hv. reflexivity.
Qed.

(** ** Lookups by email and by reset token *)

Lemma GetUser_by_email (w : World) (email : string) (st : St) :
  String.eqb email "" = false ->
  w_db_err w (st_stmts st) = None ->
  dao.GetUser w (by_email email) st =
    (set_stmts (S (st_stmts st)) st,
     (List.head (List.filter (fun r => String.eqb (Email r) email)
                             (user_table (st_db st))), None)).
Proof.
  intros Hne Hdb. unfold dao.GetUser, by_email; cbn [Username Email Realname ResetUUID].
  rewrite Hne. cbn [andb String.eqb]. unfold dbind.
  rewrite query_rows_ok by exact Hdb.
  unfold dret. do 3 f_equal. apply List.filter_ext. intros r.
  unfold dao.criterion. rewrite Hne. cbn. rewrite ?andb_true_r. reflexivity.
Qed.

Lemma GetUser_by_token (w : World) (token : string) (st : St) :
  String.eqb token "" = false ->
  w_db_err w (st_stmts st) = None ->
  dao.GetUser w (by_token token) st =
    (set_stmts (S (st_stmts st)) st,
     (List.head (List.filter (fun r => String.eqb (ResetUUID r) token)
                             (user_table (st_db st))), None)).
Proof.
  intros Hne Hdb. unfold dao.GetUser, by_token; cbn [Username Email Realname ResetUUID].
  rewrite Hne. cbn [andb String.eqb]. unfold dbind.
  rewrite query_rows_ok by exact Hdb.
  unfold dret. do 3 f_equal. apply List.filter_ext. intros r.
  unfold dao.criterion. rewrite Hne. cbn. rewrite ?andb_true_r. reflexivity.
Qed.

(** A lookup sends at most one statement and writes nothing else. *)
Lemma GetUser_frame (w : World) (q : User) (st : St) :
  fst (dao.GetUser w q st) = st
  \/ fst (dao.GetUser w q st) = set_stmts (S (st_stmts st)) st.
Proof.
  unfold dao.GetUser.
  destruct (_ && _); [ left; reflexivity | right ].
  unfold dbind.
  destruct (w_db_err w (st_stmts st)) as [e |] eqn:E.
  - rewrite (query_rows_err _ _ _ e) by exact E. reflexivity.
  - rewrite query_rows_ok by exact E. reflexivity.
Qed.

Lemma filter_none {A} (f : A -> bool) (l : list A) :
  (forall x, In x l -> f x = false) -> List.filter f l = [].
Proof.
  induction l as [| a l IH]; intros Hf; [ reflexivity | ].
  cbn. rewrite (Hf a) by (left; reflexivity).
  apply IH. intros x Hx. apply Hf. right. exact Hx.
Qed.

Lemma head_filter_sound {A} (f : A -> bool) (l : list A) (x : A) :
  List.head (List.filter f l) = Some x -> In x l /\ f x = true.
Proof.
  intros Hh. apply List.filter_In.
  destruct (List.filter f l) as [| y ys]; [ discriminate | ].
  injection Hh as ->. left. reflexivity.
Qed.

(** ** Reset eligibility *)

(** C5 (amended). When the authentication mode can be read, the check
    succeeds exactly when the mode is [common.DBAuth] or the user has id
    1; when it cannot be read, the check fails for every user, the one
    with id 1 included.  At request and at redeem alike, a user who fails
    the check gets status 403 with body "Forbidden", and the run ends in
    the state the lookup left: the table is as before, no random string
    was drawn and no mail was dispatched. *)
Theorem reset_eligibility (w : World) (u : User) :
  (forall mode, w_AuthMode w = Ok mode ->
     (controllers.isUserResetable w (Some u) = true <-> mode = DBAuth \/ UserID u = 1))
  /\ (forall e, w_AuthMode w = Err e ->
        controllers.isUserResetable w (Some u) = false)
  /\ (controllers.isUserResetable w (Some u) = false ->
      forall (rq : Request) (st st1 : St),
        (re_match email_pattern (GetString rq "email") = true ->
         dao.GetUser w (by_email (GetString rq "email")) st = (st1, (Some u, None)) ->
         controllers.SendResetEmail w rq st =
           (st1, inl (mkAbort StatusForbidden "Forbidden"))
         /\ st_db st1 = st_db st /\ st_rand st1 = st_rand st
         /\ st_mail st1 = st_mail st)
        /\ (GetString rq "reset_uuid" <> "" ->
            dao.GetUser w (by_token (GetString rq "reset_uuid")) st = (st1, (Some u, None)) ->
            controllers.ResetPassword w rq st =
              (st1, inl (mkAbort StatusForbidden "Forbidden"))
            /\ st_db st1 = st_db st /\ st_rand st1 = st_rand st
            /\ st_mail st1 = st_mail st)).
Proof.
  split; [ | split ].
  - intros mode Hm. unfold controllers.isUserResetable. rewrite Hm.
    destruct (String.eqb_spec mode DBAuth) as [-> | Hne].
    + split; [ intros _; left; reflexivity | reflexivity ].
    + rewrite Z.eqb_eq. split; [ intros ->; right; reflexivity | ].
      intros [Hd | Hid]; [ contradiction | exact Hid ].
  - intros e He. unfold controllers.isUserResetable. rewrite He. reflexivity.
  - intros Hno rq st st1.
    assert (Hframe : forall q, dao.GetUser w q st = (st1, (Some u, None)) ->
              st_db st1 = st_db st /\ st_rand st1 = st_rand st
              /\ st_mail st1 = st_mail st).
    { intros q Hq. destruct (GetUser_frame w q st) as [E | E];
        rewrite Hq in E; cbn in E; subst st1; auto. }
    split.
    + intros Hvalid Hget. split; [ | exact (Hframe _ Hget) ].
      unfold controllers.SendResetEmail. rewrite Hvalid. cbn [negb].
      unfold hbind, call. rewrite Hget, Hno. reflexivity.
    + intros Htok Hget. split; [ | exact (Hframe _ Hget) ].
      unfold controllers.ResetPassword.
      apply String.eqb_neq in Htok. rewrite Htok.
      unfold hbind, call. rewrite Hget, Hno. reflexivity.
Qed.

(** ** Unknown email, unknown token *)

(** C4 (amended). [SendResetEmail] with an email that matches the pattern
    and is the email of no row, the store answering: the handler aborts
    with status 404 and the body "email_does_not_exist"; only the lookup
    statement was sent. *)
Theorem SendResetEmail_unknown_email (w : World) (rq : Request) (st : St) :
  re_match email_pattern (GetString rq "email") = true ->
  w_db_err w (st_stmts st) = None ->
  (forall r, In r (user_table (st_db st)) -> Email r <> GetString rq "email") ->
  controllers.SendResetEmail w rq st =
    (set_stmts (S (st_stmts st)) st,
     inl (mkAbort StatusNotFound "email_does_not_exist")).
Proof.
  intros Hvalid Hdb Hnone.
  unfold controllers.SendResetEmail. rewrite Hvalid. cbn [negb].
  unfold hbind, call.
  rewrite GetUser_by_email by (auto using valid_email_not_blank).
  rewrite filter_none; [ reflexivity | ].
  intros r Hr. apply String.eqb_neq. apply Hnone. exact Hr.
Qed.

Lemma GetUser_token_sound (w : World) (token : string) (st s1 : St) (u : User) :
  String.eqb token "" = false ->
  dao.GetUser w (by_token token) st = (s1, (Some u, None)) ->
  ResetUUID u = token.
Proof.
  intros Hne Hget.
  destruct (w_db_err w (st_stmts st)) as [e |] eqn:E.
  - unfold dao.GetUser, by_token in Hget;
      cbn [Username Email Realname ResetUUID] in Hget.
    rewrite Hne in Hget. cbn [andb String.eqb] in Hget. unfold dbind in Hget.
    rewrite (query_rows_err _ _ _ e) in Hget by exact E. discriminate.
  - rewrite GetUser_by_token in Hget by assumption.
    injection Hget as _ Hhead.
    apply head_filter_sound in Hhead as [_ Heq].
    apply String.eqb_eq. exact Heq.
Qed.

(** A redemption that succeeds leaves no row with the redeemed token. *)
Lemma ResetPassword_success_clears (w : World) (rq : Request) (st st' : St) :
  GetString rq "reset_uuid" <> "" ->
  controllers.ResetPassword w rq st = (st', inr tt) ->
  forall r, In r (user_table (st_db st')) -> ResetUUID r <> GetString rq "reset_uuid".
Proof.
  intros Htok Hrun.
  pose proof Htok as Hne. apply String.eqb_neq in Hne.
  unfold controllers.ResetPassword in Hrun. rewrite Hne in Hrun.
  unfold hbind, call in Hrun.
  destruct (dao.GetUser w (by_token (GetString rq "reset_uuid")) st)
    as [s1 [ou oe]] eqn:Hget.
  destruct oe as [e |]; [ destruct ou; discriminate | ].
  destruct ou as [user |]; [ | discriminate ].
  destruct (controllers.isUserResetable w (Some user)); cbn [negb] in Hrun;
    [ | discriminate ].
  destruct (String.eqb (GetString rq "password") ""); cbn [negb] in Hrun;
    [ discriminate | ].
  destruct (dao.ResetUserPassword w
              (controllers.with_Password (GetString rq "password") user) s1)
    as [s2 oe] eqn:Hreset.
  destruct oe as [e |]; [ discriminate | ].
  injection Hrun as <-.
  pose proof (GetUser_token_sound _ _ _ _ _ Hne Hget) as Huser.
  unfold dao.ResetUserPassword, dbind, GenerateRandomString in Hreset.
  cbn [controllers.with_Password ResetUUID Password] in Hreset.
  rewrite Huser in Hreset.
  match type of Hreset with
  | exec_update _ _ _ ?s = _ =>
      destruct (w_db_err w (st_stmts s)) as [e |] eqn:E
  end.
  - rewrite (exec_update_err _ _ _ _ e) in Hreset by exact E. discriminate.
  - rewrite exec_update_ok in Hreset by exact E.
    injection Hreset as <-. cbn [set_db st_db user_table].
    intros r Hr. apply List.in_map_iff in Hr as [r0 [<- _]].
    destruct (String.eqb_spec (ResetUUID r0) (GetString rq "reset_uuid")) as [_ | Hd].
    + cbn [ResetUUID]. intros Hempty. apply Htok. symmetry. exact Hempty.
    + exact Hd.
Qed.

(** C3 (amended). [ResetPassword] with a non-empty token that is the reset
    token of no row, the store answering: the handler aborts with status
    400 and the body "User does not exist", and only the lookup statement
    was sent.  In particular a second redemption of a token that was
    redeemed with success ends this way, because the first one cleared
    it. *)
Theorem ResetPassword_unknown_token (w : World) (rq : Request) (st : St) :
  GetString rq "reset_uuid" <> "" ->
  ((forall r, In r (user_table (st_db st)) -> ResetUUID r <> GetString rq "reset_uuid") ->
   w_db_err w (st_stmts st) = None ->
   controllers.ResetPassword w rq st =
     (set_stmts (S (st_stmts st)) st,
      inl (mkAbort StatusBadRequest "User does not exist")))
  /\ (forall (w0 : World) (st0 : St),
        controllers.ResetPassword w0 rq st0 = (st, inr tt) ->
        w_db_err w (st_stmts st) = None ->
        controllers.ResetPassword w rq st =
          (set_stmts (S (st_stmts st)) st,
           inl (mkAbort StatusBadRequest "User does not exist"))).
Proof.
  intros Htok.
  assert (Hfirst :
    (forall r, In r (user_table (st_db st)) -> ResetUUID r <> GetString rq "reset_uuid") ->
    w_db_err w (st_stmts st) = None ->
    controllers.ResetPassword w rq st =
      (set_stmts (S (st_stmts st)) st,
       inl (mkAbort StatusBadRequest "User does not exist"))).
  { intros Hnone Hdb.
    pose proof Htok as Hne. apply String.eqb_neq in Hne.
    unfold controllers.ResetPassword. rewrite Hne.
    unfold hbind, call.
    rewrite GetUser_by_token by assumption.
    rewrite filter_none; [ reflexivity | ].
    intros r Hr. apply String.eqb_neq. apply Hnone. exact Hr. }
  split; [ exact Hfirst | ].
  intros w0 st0 Hprev Hdb. apply Hfirst; [ | exact Hdb ].
  exact (ResetPassword_success_clears w0 rq st0 st Htok Hprev).
Qed.

(** ** Reset request: token and dispatch *)

(** Closes a branch that ends with the dispatch log [Hmail] says is the
    initial one, against the assumption that the log has grown. *)
Ltac no_dispatch Hmail :=
  let Hm := fresh "Hm" in intros Hm; exfalso; apply Hm; exact Hmail.

(** A mail is dispatched by [SendResetEmail] only after the token has been
    stored: a run that adds to the dispatch log ends with the token, the
    next random string, stored for the rows with the email. *)
Lemma SendResetEmail_dispatch_after_store (w : World) (rq : Request) (st : St) :
  st_mail (fst (controllers.SendResetEmail w rq st)) <> st_mail st ->
  user_table (st_db (fst (controllers.SendResetEmail w rq st))) =
    token_stored (GetString rq "email") (w_random w (st_rand st))
                 (user_table (st_db st)).
Proof.
  unfold controllers.SendResetEmail.
  destruct (re_match email_pattern (GetString rq "email")); cbn [negb];
    [ | no_dispatch (eq_refl (st_mail st)) ].
  unfold hbind, call.
  destruct (dao.GetUser w (by_email (GetString rq "email")) st)
    as [s1 [ou oe]] eqn:Hget.
  assert (Hs1 : st_mail s1 = st_mail st /\ st_db s1 = st_db st
                /\ st_rand s1 = st_rand st).
  { destruct (GetUser_frame w (by_email (GetString rq "email")) st) as [E | E];
      rewrite Hget in E; cbn in E; subst s1; auto. }
  destruct Hs1 as [Hmail [Hdb Hrand]].
  destruct oe as [e |];
    [ destruct ou; no_dispatch Hmail | ].
  destruct ou as [u |]; [ | no_dispatch Hmail ].
  destruct (controllers.isUserResetable w (Some u)); cbn [negb];
    [ | no_dispatch Hmail ].
  unfold GenerateRandomString, dao.UpdateUserResetUUID.
  cbn [Email ResetUUID].
  match goal with
  | |- context [exec_update _ _ _ ?s] =>
      destruct (w_db_err w (st_stmts s)) as [e |] eqn:E
  end.
  - rewrite (exec_update_err _ _ _ _ e) by exact E.
    no_dispatch Hmail.
  - rewrite exec_update_ok by exact E.
    destruct (w_ParseFiles w "views/reset-password-mail.tpl") as [tpl | e];
      [ | no_dispatch Hmail ].
    destruct (w_ExtEndpoint w) as [url | e];
      [ | no_dispatch Hmail ].
    destruct (tpl _) as [message | e];
      [ | no_dispatch Hmail ].
    destruct (w_Email w) as [settings | e];
      [ | no_dispatch Hmail ].
    unfold controllers.Send.
    intros _. unfold token_stored.
    destruct (w_Send w _); cbn; rewrite Hdb, Hrand; reflexivity.
Qed.

(** C7. [SendResetEmail] for the email of a user who may reset, with the
    template, the endpoint and the mail settings at hand.  A run that
    dispatches a mail has stored the token before.  When the store
    accepts the token and the dispatch fails, the handler aborts with
    status 500 and the body "send_email_failed", and the state it leaves
    still holds the token as the reset token of the user: the update is
    not undone.  When the store refuses the token, the handler aborts
    with status 500 and nothing is dispatched. *)
Theorem SendResetEmail_dispatch_failure
    (w : World) (rq : Request) (st : St) (u : User) (rest : list User)
    (tpl : Template) (url message : string) (settings : EmailSettings) (err : error) :
  let email := GetString rq "email" in
  let uuid := w_random w (st_rand st) in
  let mail := reset_mail settings email message in
  let stored := token_stored email uuid (user_table (st_db st)) in
  re_match email_pattern email = true ->
  w_db_err w (st_stmts st) = None ->
  List.filter (fun r => String.eqb (Email r) email) (user_table (st_db st)) = u :: rest ->
  controllers.isUserResetable w (Some u) = true ->
  w_ParseFiles w "views/reset-password-mail.tpl" = Ok tpl ->
  w_ExtEndpoint w = Ok url ->
  tpl (mkDetail (w_Tr w "reset_email_hint") url uuid) = Ok message ->
  w_Email w = Ok settings ->
  w_Send w mail = Some err ->
  (st_mail (fst (controllers.SendResetEmail w rq st)) <> st_mail st ->
   user_table (st_db (fst (controllers.SendResetEmail w rq st))) = stored)
  /\ (w_db_err w (S (st_stmts st)) = None ->
      controllers.SendResetEmail w rq st =
        (mkSt (mkDB stored (last_id (st_db st))) (st_session st) (st_reply st)
              (st_mail st ++ [mail]) (S (S (st_stmts st))) (S (st_rand st)),
         inl (mkAbort StatusInternalServerError "send_email_failed"))
      /\ In (dao.with_ResetUUID uuid u) stored)
  /\ (forall e, w_db_err w (S (st_stmts st)) = Some e ->
      controllers.SendResetEmail w rq st =
        (mkSt (st_db st) (st_session st) (st_reply st) (st_mail st)
              (S (S (st_stmts st))) (S (st_rand st)),
         inl (mkAbort StatusInternalServerError "Internal Server Error"))).
Proof.
  intros email uuid mail stored Hvalid Hdb Hrows Hok Htpl Hurl Hmsg Hset Hsend.
  split; [ apply SendResetEmail_dispatch_after_store | ].
  assert (Hget : dao.GetUser w (by_email email) st =
                 (set_stmts (S (st_stmts st)) st, (Some u, None))).
  { rewrite GetUser_by_email by (auto using valid_email_not_blank).
    rewrite Hrows. reflexivity. }
  split.
  - intros Hdb2. split.
    + unfold controllers.SendResetEmail. fold email. rewrite Hvalid. cbn [negb].
      unfold hbind, call. rewrite Hget, Hok. cbn [negb].
      unfold GenerateRandomString, dao.UpdateUserResetUUID.
      cbn [Email ResetUUID by_email].
      rewrite exec_update_ok by exact Hdb2.
      rewrite Htpl, Hurl. cbn [st_rand set_stmts]. fold uuid.
      rewrite Hmsg, Hset. unfold controllers.Send.
      fold (reset_mail settings email message). fold mail. rewrite Hsend.
      reflexivity.
    + unfold stored, token_stored. apply List.in_map_iff. exists u.
      assert (Hin : In u (List.filter (fun r => String.eqb (Email r) email)
                                      (user_table (st_db st))))
        by (rewrite Hrows; left; reflexivity).
      apply List.filter_In in Hin as [Hin Heq]. rewrite Heq. auto.
  - intros e Hdb2.
    unfold controllers.SendResetEmail. fold email. rewrite Hvalid. cbn [negb].
    unfold hbind, call. rewrite Hget, Hok. cbn [negb].
    unfold GenerateRandomString, dao.UpdateUserResetUUID.
    rewrite (exec_update_err _ _ _ _ e) by exact Hdb2.
    reflexivity.
Qed.

(** ** Registration *)

(** C8. [Register] draws the next random string as the salt and, when the
    store accepts the two statements, appends one row whose password
    column is [Encrypt (Password user) salt] and whose salt column is that
    salt; the generator has moved on, so the next draw is another output.
    The password reaches the store through [Encrypt] only: two users that
    differ in their passwords alone, with the same hash under the salt,
    leave the same state and the same result, whatever the store
    answers. *)
Theorem Register_stores_salted_hash (w : World) (user : User) (st : St) :
  let salt := w_random w (st_rand st) in
  let id := last_id (st_db st) + 1 in
  (w_db_err w (st_stmts st) = None ->
   w_db_err w (S (st_stmts st)) = None ->
   dao.Register w user st =
     (mkSt (mkDB (user_table (st_db st) ++
                    [mkUser id (Username user) (Email user)
                            (Encrypt (Password user) salt)
                            (Realname user) (Comment user) (HasAdminRole user)
                            "" salt (w_now w) (w_now w)])
                 id)
           (st_session st) (st_reply st) (st_mail st)
           (S (S (st_stmts st))) (S (st_rand st)),
      (id, None)))
  /\ (forall user' : User,
        Username user' = Username user -> Email user' = Email user ->
        Realname user' = Realname user -> Comment user' = Comment user ->
        HasAdminRole user' = HasAdminRole user ->
        Encrypt (Password user') salt = Encrypt (Password user) salt ->
        dao.Register w user' st = dao.Register w user st).
Proof.
  intros salt id. split.
  - intros Hprep Hexec.
    unfold dao.Register, dbind, db_stmt. rewrite Hprep.
    unfold GenerateRandomString.
    rewrite exec_insert_ok by exact Hexec.
    reflexivity.
  - intros user' Hu He Hr Hc Ha Hp.
    unfold dao.Register, dbind, db_stmt.
    destruct (w_db_err w (st_stmts st)); [ reflexivity | ].
    unfold GenerateRandomString. cbn [st_rand set_stmts].
    fold salt. rewrite Hu, He, Hr, Hc, Ha, Hp. reflexivity.
Qed.

(** ** OAuth onboarding *)

Lemma session_of_userId (u : User) (m : gmap string SessionValue) :
  session_of u m !! "userId" = Some (VInt (UserID u)).
Proof.
  unfold session_of.
  rewrite lookup_insert_ne by discriminate.
  rewrite lookup_insert_ne by discriminate.
  apply lookup_insert_eq.
Qed.

Section OauthValidated.

Variables (w : World) (rq : Request) (cfg : OAuthConf) (tok : string) (data : Token).
Hypothesis Hpool : w_SystemCertPool w = None.
Hypothesis Hcfg : w_OAuthConf w = Ok cfg.
Hypothesis Hexchange : w_Exchange w cfg (GetString rq "code") = Ok tok.
Hypothesis Hparse : controllers.ParseWithClaims w tok controllers.oauth_keyFunc = Ok data.

Let username : string := Subject (Claims data).
Let email : string := Subject (Claims data) ++ "@" ++ Issuer (Claims data).
Let found (st : St) : list User :=
  List.filter (fun r => String.eqb (Username r) username) (user_table (st_db st)).

Lemma Oauth_reuses (st : St) (u : User) (rest : list User) :
  w_db_err w (st_stmts st) = None ->
  found st = u :: rest ->
  controllers.Oauth w rq st =
    (mkSt (st_db st) (session_of u (st_session st))
          (Some (ReplyRedirect "/harbor" StatusFound)) (st_mail st)
          (S (st_stmts st)) (st_rand st),
     inr tt).
Proof.
  intros Hdb Hfound.
  unfold controllers.Oauth. rewrite Hpool, Hcfg, Hexchange, Hparse.
  unfold hbind, call, controllers.createUser, dao.OnBoardUser, dbind.
  cbn [Username]. fold username.
  rewrite query_rows_ok by exact Hdb.
  fold (found st). rewrite Hfound. reflexivity.
Qed.

Lemma Oauth_creates (st : St) :
  w_db_err w (st_stmts st) = None ->
  w_db_err w (S (st_stmts st)) = None ->
  found st = [] ->
  let id := last_id (st_db st) + 1 in
  let row := mkUser id username email "" "" "" 0 "" "" (w_now w) (w_now w) in
  controllers.Oauth w rq st =
    (mkSt (mkDB (user_table (st_db st) ++ [row]) id)
          (session_of row (st_session st))
          (Some (ReplyRedirect "/harbor" StatusFound)) (st_mail st)
          (S (S (st_stmts st))) (st_rand st),
     inr tt).
Proof.
  intros Hdb Hdb2 Hfound id row.
  unfold controllers.Oauth. rewrite Hpool, Hcfg, Hexchange, Hparse.
  unfold hbind, call, controllers.createUser, dao.OnBoardUser, dbind.
  cbn [Username]. fold username.
  rewrite query_rows_ok by exact Hdb.
  fold (found st). rewrite Hfound.
  rewrite exec_insert_ok by exact Hdb2.
  reflexivity.
Qed.

Lemma Oauth_refused_insert (st : St) (e : error) :
  w_db_err w (st_stmts st) = None ->
  w_db_err w (S (st_stmts st)) = Some e ->
  found st = [] ->
  snd (controllers.Oauth w rq st) = inl (mkAbort 500 "500").
Proof.
  intros Hdb Hdb2 Hfound.
  unfold controllers.Oauth. rewrite Hpool, Hcfg, Hexchange, Hparse.
  unfold hbind, call, controllers.createUser, dao.OnBoardUser, dbind.
  cbn [Username]. fold username.
  rewrite query_rows_ok by exact Hdb.
  fold (found st). rewrite Hfound.
  unfold exec_insert, dbind, db_stmt. cbn [st_stmts set_stmts].
  rewrite Hdb2. reflexivity.
Qed.

(** C6. [Oauth] with a token that passed validation, the store answering.
    The identity is the one derived from the claims: the username is the
    subject and the email is the subject, an at sign and the issuer.  When
    a row has that username, the first such row is the session's user and
    the table is left as it is.  When none has, exactly one row is
    appended, with that username and email and no password, and it is the
    session's user.  A second run with the same token on the state a first
    run left finds that user again: the table is unchanged and the session
    is for the same user id. *)
Theorem Oauth_onboards_derived_identity (st : St) :
  w_db_err w (st_stmts st) = None ->
  (forall u rest, found st = u :: rest ->
     controllers.Oauth w rq st =
       (mkSt (st_db st) (session_of u (st_session st))
             (Some (ReplyRedirect "/harbor" StatusFound)) (st_mail st)
             (S (st_stmts st)) (st_rand st),
        inr tt))
  /\ (found st = [] ->
      w_db_err w (S (st_stmts st)) = None ->
      let id := last_id (st_db st) + 1 in
      let row := mkUser id username email "" "" "" 0 "" "" (w_now w) (w_now w) in
      controllers.Oauth w rq st =
        (mkSt (mkDB (user_table (st_db st) ++ [row]) id)
              (session_of row (st_session st))
              (Some (ReplyRedirect "/harbor" StatusFound)) (st_mail st)
              (S (S (st_stmts st))) (st_rand st),
         inr tt))
  /\ (forall st1, controllers.Oauth w rq st = (st1, inr tt) ->
      w_db_err w (st_stmts st1) = None ->
      exists st2,
        controllers.Oauth w rq st1 = (st2, inr tt)
        /\ st_db st2 = st_db st1
        /\ st_session st2 !! "userId" = st_session st1 !! "userId").
Proof.
  intros Hdb. split; [ | split ].
  - intros u rest Hfound. exact (Oauth_reuses st u rest Hdb Hfound).
  - intros Hfound Hdb2. exact (Oauth_creates st Hdb Hdb2 Hfound).
  - intros st1 Hrun Hdb1.
    destruct (found st) as [| u rest] eqn:Hfound.
    + destruct (w_db_err w (S (st_stmts st))) as [e |] eqn:Hdb2.
      * pose proof (Oauth_refused_insert st e Hdb Hdb2 Hfound) as Habort.
        rewrite Hrun in Habort. discriminate.
      * rewrite (Oauth_creates st Hdb Hdb2 Hfound) in Hrun.
        injection Hrun as <-.
        eexists. split; [ | split ].
        -- eapply Oauth_reuses; [ exact Hdb1 | ].
           unfold found. cbn [st_db user_table].
           rewrite List.filter_app. fold (found st). rewrite Hfound.
           cbn [List.filter Username app]. rewrite String.eqb_refl. reflexivity.
        -- reflexivity.
        -- cbn [st_session]. rewrite !session_of_userId. reflexivity.
    + rewrite (Oauth_reuses st u rest Hdb Hfound) in Hrun.
      injection Hrun as <-.
      eexists. split; [ | split ].
      * eapply Oauth_reuses; [ exact Hdb1 | exact Hfound ].
      * reflexivity.
      * cbn [st_session]. rewrite !session_of_userId. reflexivity.
Qed.

End OauthValidated.

End Properties.

(** * The statements at work in the demo world *)

#[local] Existing Instance demo_externals.

Lemma UserExists_blank_criteria_witness :
  dao.UserExists demo_world User0 "username" demo_st =
    (demo_st, (false, Some "user name, email, and realname are blank")).
Proof.
  apply (UserExists_blank_criteria demo_world User0 "username" demo_st); reflexivity.
Defined.

(** The value is the realname of a row of the table. *)
Lemma UserExists_other_target_witness :
  In "Bob" (List.map Realname (user_table (st_db demo_st)))
  /\ controllers.UserExists demo_world [("target", "realname"); ("value", "Bob")] demo_st =
       (demo_st, inl (mkAbort 500 "Internal error.")).
Proof.
  split; [ right; left; reflexivity | ].
  apply (UserExists_other_target demo_world
           [("target", "realname"); ("value", "Bob")] demo_st); discriminate.
Defined.

Lemma Oauth_rejects_other_algorithm_witness :
  controllers.Oauth demo_world [("code", "jwt-none-alice")] demo_st =
    (demo_st, inl (mkAbort 500 "error parsing oauth response")).
Proof.
  apply (Oauth_rejects_other_algorithm demo_world [("code", "jwt-none-alice")]
           demo_st demo_conf "jwt-none-alice"
           (mkToken "jwt-none-alice" SigningMethodNone
                    (mkClaims "alice" "idp.example.org")));
    [ reflexivity | reflexivity | reflexivity | reflexivity | discriminate ].
Defined.

Lemma Login_unauthorized_or_session_witness :
  controllers.Login demo_world [("principal", "mallory"); ("password", "guess")] demo_st =
    (set_stmts 1 demo_st, inl (mkAbort 401 ""))
  /\ controllers.Login demo_world [("principal", "bob"); ("password", "guess")] demo_st =
       (set_stmts 1 demo_st, inl (mkAbort 401 ""))
  /\ controllers.Login demo_world [("principal", "bob@example.org"); ("password", "hunter2")]
                       demo_st =
       (set_session (session_of bob ∅) (set_stmts 1 demo_st), inr tt).
Proof.
  split; [ | split ].
  - apply (proj1 (Login_unauthorized_or_session demo_world
                    [("principal", "mallory"); ("password", "guess")] demo_st eq_refl)).
    reflexivity.
  - apply (proj1 (proj2 (Login_unauthorized_or_session demo_world
                    [("principal", "bob"); ("password", "guess")] demo_st eq_refl))
             bob []); reflexivity.
  - apply (proj2 (proj2 (Login_unauthorized_or_session demo_world
                    [("principal", "bob@example.org"); ("password", "hunter2")]
                    demo_st eq_refl))
             bob []); reflexivity.
Defined.

(** C5 as first stated fails: without a readable authentication mode the
    user with id 1 does not pass the check. *)
Lemma reset_eligibility_counterexample :
  ~ (controllers.isUserResetable no_config_world (Some admin) = true
     <-> (w_AuthMode no_config_world = Ok DBAuth \/ UserID admin = 1)).
Proof.
  intros [_ Hback].
  assert (Hyes : controllers.isUserResetable no_config_world (Some admin) = true)
    by (apply Hback; right; reflexivity).
  vm_compute in Hyes. discriminate.
Qed.

Lemma reset_eligibility_witness :
  (controllers.isUserResetable ldap_world (Some admin) = true)
  /\ controllers.isUserResetable ldap_world (Some bob) = false
  /\ controllers.isUserResetable no_config_world (Some admin) = false
  /\ controllers.SendResetEmail ldap_world [("email", "bob@example.org")] demo_st =
       (set_stmts 1 demo_st, inl (mkAbort 403 "Forbidden"))
  /\ controllers.ResetPassword ldap_world
       [("reset_uuid", "uuid-0"); ("password", "new")] pending_st =
       (set_stmts 1 pending_st, inl (mkAbort 403 "Forbidden")).
Proof.
  split; [ | split; [ | split; [ | split ] ] ].
  - apply (proj1 (reset_eligibility ldap_world admin) "ldap_auth" eq_refl).
    right. reflexivity.
  - reflexivity.
  - apply (proj1 (proj2 (reset_eligibility no_config_world admin))
             "failed to get configurations" eq_refl).
  - pose proof (proj2 (proj2 (reset_eligibility ldap_world bob))) as Hforbid.
    apply (Hforbid ltac:(reflexivity) [("email", "bob@example.org")] demo_st
             (set_stmts 1 demo_st));
      reflexivity.
  - pose proof (proj2 (proj2 (reset_eligibility ldap_world
                                (dao.with_ResetUUID "uuid-0" bob)))) as Hforbid.
    apply (Hforbid ltac:(reflexivity) [("reset_uuid", "uuid-0"); ("password", "new")]
             pending_st (set_stmts 1 pending_st));
      [ discriminate | reflexivity ].
Defined.

(** C3 as first stated fails: an unknown token is answered with status
    400, not with 404. *)
Lemma ResetPassword_unknown_token_counterexample :
  ~ (exists body : string,
       snd (controllers.ResetPassword demo_world
              [("reset_uuid", "no-such-token"); ("password", "new")] demo_st) =
       inl (mkAbort StatusNotFound body)).
Proof.
  intros [body Hrun]. vm_compute in Hrun. discriminate.
Qed.

Lemma ResetPassword_unknown_token_witness :
  controllers.ResetPassword demo_world
    [("reset_uuid", "no-such-token"); ("password", "new")] demo_st =
    (set_stmts 1 demo_st, inl (mkAbort 400 "User does not exist"))
  /\ (let rq := [("reset_uuid", "uuid-0"); ("password", "new")] in
      let once := controllers.ResetPassword demo_world rq pending_st in
      snd once = inr tt
      /\ controllers.ResetPassword demo_world rq (fst once) =
           (set_stmts (S (st_stmts (fst once))) (fst once),
            inl (mkAbort 400 "User does not exist"))).
Proof.
  split.
  - apply (proj1 (ResetPassword_unknown_token demo_world
                    [("reset_uuid", "no-such-token"); ("password", "new")] demo_st
                    ltac:(discriminate)));
      [ | reflexivity ].
    intros r [<- | [<- | []]]; discriminate.
  - cbv zeta. split; [ reflexivity | ].
    apply (proj2 (ResetPassword_unknown_token demo_world
                    [("reset_uuid", "uuid-0"); ("password", "new")]
                    (fst (controllers.ResetPassword demo_world
                            [("reset_uuid", "uuid-0"); ("password", "new")] pending_st))
                    ltac:(discriminate))
             demo_world pending_st);
      reflexivity.
Defined.

(** C4 as first stated fails: the answer to an unknown email names the
    fact, and differs from the answer to a known one. *)
Lemma SendResetEmail_unknown_email_counterexample :
  snd (controllers.SendResetEmail demo_world [("email", "carol@example.org")] demo_st) =
    inl (mkAbort StatusNotFound "email_does_not_exist")
  /\ snd (controllers.SendResetEmail demo_world [("email", "bob@example.org")] demo_st) =
       inr tt
  /\ snd (controllers.SendResetEmail demo_world [("email", "carol@example.org")] demo_st) <>
     snd (controllers.SendResetEmail demo_world [("email", "bob@example.org")] demo_st).
Proof.
  split; [ reflexivity | split; [ reflexivity | ] ].
  vm_compute. discriminate.
Qed.

Lemma SendResetEmail_unknown_email_witness :
  controllers.SendResetEmail demo_world [("email", "carol@example.org")] demo_st =
    (set_stmts 1 demo_st, inl (mkAbort 404 "email_does_not_exist")).
Proof.
  apply (SendResetEmail_unknown_email demo_world [("email", "carol@example.org")] demo_st);
    [ reflexivity | reflexivity | ].
  intros r [<- | [<- | []]]; discriminate.
Defined.

Lemma SendResetEmail_dispatch_failure_witness :
  controllers.SendResetEmail smtp_down_world [("email", "bob@example.org")] demo_st =
    (mkSt (mkDB [admin; dao.with_ResetUUID "uuid-0" bob] 2) ∅ None
          [reset_mail demo_settings "bob@example.org"
             "reset_email_hint https://harbor.example.org/reset_password?reset_uuid=uuid-0"]
          2 1,
     inl (mkAbort 500 "send_email_failed"))
  /\ In (dao.with_ResetUUID "uuid-0" bob)
        (token_stored "bob@example.org" "uuid-0" (user_table (st_db demo_st))).
Proof.
  pose proof (SendResetEmail_dispatch_failure smtp_down_world
                [("email", "bob@example.org")] demo_st bob [] demo_template
                "https://harbor.example.org"
                "reset_email_hint https://harbor.example.org/reset_password?reset_uuid=uuid-0"
                demo_settings "connection refused") as Hrun.
  cbv zeta in Hrun.
  apply (proj1 (proj2 (Hrun ltac:(reflexivity) ltac:(reflexivity) ltac:(reflexivity)
                            ltac:(reflexivity) ltac:(reflexivity) ltac:(reflexivity)
                            ltac:(reflexivity) ltac:(reflexivity) ltac:(reflexivity)))).
  reflexivity.
Defined.

(** The fields [Register] does not insert make no difference. *)
Lemma Register_stores_salted_hash_witness :
  dao.Register demo_world carol demo_st =
    (mkSt (mkDB [admin; bob;
                 mkUser 3 "carol" "carol@example.org" "pbkdf2(pw,uuid-0)" "" "" 0
                        "" "uuid-0" 1500000000 1500000000] 3)
          ∅ None [] 2 1,
     (3, None))
  /\ dao.Register demo_world
       (mkUser 77 "carol" "carol@example.org" "pw" "" "" 0 "stale" "old-salt" 5 6) demo_st =
     dao.Register demo_world carol demo_st.
Proof.
  split.
  - exact (proj1 (Register_stores_salted_hash (H := demo_externals)
                    demo_world carol demo_st) eq_refl eq_refl).
  - apply (proj2 (Register_stores_salted_hash (H := demo_externals)
                    demo_world carol demo_st)); reflexivity.
Defined.

(** A first completion creates alice, a second one finds her. *)
Lemma Oauth_onboards_derived_identity_witness :
  let rq := [("code", "jwt-hs256-alice")] in
  let alice := mkUser 3 "alice" "alice@idp.example.org" "" "" "" 0 "" ""
                      1500000000 1500000000 in
  let st1 := mkSt (mkDB [admin; bob; alice] 3) (session_of alice ∅)
                  (Some (ReplyRedirect "/harbor" 302)) [] 2 0 in
  controllers.Oauth demo_world rq demo_st = (st1, inr tt)
  /\ exists st2,
       controllers.Oauth demo_world rq st1 = (st2, inr tt)
       /\ st_db st2 = st_db st1
       /\ st_session st2 !! "userId" = st_session st1 !! "userId".
Proof.
  cbv zeta.
  pose proof (Oauth_onboards_derived_identity (H := demo_externals)
                demo_world [("code", "jwt-hs256-alice")]
                demo_conf "jwt-hs256-alice"
                (mkToken "jwt-hs256-alice" SigningMethodHS256
                         (mkClaims "alice" "idp.example.org"))
                eq_refl eq_refl eq_refl eq_refl demo_st eq_refl)
    as [_ [Hcreate Hreplay]].
  split.
  - apply Hcreate; reflexivity.
  - apply Hreplay; [ apply Hcreate; reflexivity | reflexivity ].
Defined.

(** * Further properties of the code *)

(** ** The email pattern *)

Lemma all_ascii_complete (a : ascii) : In a all_ascii.
Proof.
  unfold all_ascii. apply List.in_map_iff. exists (nat_of_ascii a). split.
  - apply ascii_nat_embedding.
  - apply List.in_seq. pose proof (nat_ascii_bounded a). lia.
Qed.

Lemma re_match_none (s : string) : re_match re_none s = false.
Proof. induction s as [| a s IH]; [ reflexivity | exact IH ]. Qed.

Lemma avoids_mk_cat (c : ascii) (x y : regex) :
  re_avoids c x = true -> re_avoids c y = true -> re_avoids c (mk_cat x y) = true.
Proof.
  intros Hx Hy. destruct x, y; cbn in *; rewrite ?Hx, ?Hy; auto.
Qed.

Lemma avoids_mk_alt (c : ascii) (x y : regex) :
  re_avoids c x = true -> re_avoids c y = true -> re_avoids c (mk_alt x y) = true.
Proof.
  intros Hx Hy. destruct x, y; cbn in *; rewrite ?Hx, ?Hy; auto.
Qed.

Lemma avoids_deriv (c a : ascii) (r : regex) :
  re_avoids c r = true -> re_avoids c (re_deriv a r) = true.
Proof.
  induction r as [| | p | r IHr s IHs | r IHr s IHs | r IHr]; cbn; intros Hr.
  - reflexivity.
  - reflexivity.
  - destruct (p a); reflexivity.
  - apply andb_true_iff in Hr as [H1 H2].
    destruct (re_nullable r);
      auto using avoids_mk_cat, avoids_mk_alt.
  - apply andb_true_iff in Hr as [H1 H2]. auto using avoids_mk_alt.
  - apply avoids_mk_cat; auto.
Qed.

Lemma avoids_deriv_dead (c : ascii) (r : regex) :
  re_avoids c r = true -> re_deriv c r = re_none.
Proof.
  induction r as [| | p | r IHr s IHs | r IHr s IHs | r IHr]; cbn; intros Hr.
  - reflexivity.
  - reflexivity.
  - apply negb_true_iff in Hr. rewrite Hr. reflexivity.
  - apply andb_true_iff in Hr as [H1 H2].
    rewrite (IHr H1), (IHs H2). destruct (re_nullable r); reflexivity.
  - apply andb_true_iff in Hr as [H1 H2].
    rewrite (IHr H1), (IHs H2). reflexivity.
  - rewrite (IHr Hr). reflexivity.
Qed.

(** A string the pattern matches has none of the characters that all its
    classes refuse. *)
Lemma avoids_sound (c : ascii) (s : string) :
  forall r, re_avoids c r = true -> re_match r s = true -> has_char c s = false.
Proof.
  induction s as [| a s IH]; intros r Hr Hm; [ reflexivity | ].
  cbn in *. destruct (Ascii.eqb_spec a c) as [-> | Hne].
  - rewrite (avoids_deriv_dead c r Hr), re_match_none in Hm. discriminate.
  - cbn. apply (IH (re_deriv a r)); [ apply avoids_deriv; exact Hr | exact Hm ].
Qed.

Lemma needs_not_nullable (c : ascii) (r : regex) :
  re_needs c r = true -> re_nullable r = false.
Proof.
  induction r as [| | p | r IHr s IHs | r IHr s IHs | r IHr];
    cbn [re_needs re_nullable]; intros Hr;
    try reflexivity; try discriminate.
  - apply orb_true_iff in Hr as [H1 | H2].
    + rewrite (IHr H1). reflexivity.
    + rewrite (IHs H2). apply andb_false_r.
  - apply andb_true_iff in Hr as [H1 H2]. rewrite (IHr H1), (IHs H2). reflexivity.
Qed.

Lemma needs_mk_cat (c : ascii) (x y : regex) :
  re_needs c x || re_needs c y = true -> re_needs c (mk_cat x y) = true.
Proof.
  intros Hxy.
  destruct x, y; cbn [re_needs mk_cat orb] in *; auto; try discriminate;
    rewrite ?orb_false_r in *; auto.
Qed.

Lemma needs_mk_alt (c : ascii) (x y : regex) :
  re_needs c x = true -> re_needs c y = true -> re_needs c (mk_alt x y) = true.
Proof.
  intros Hx Hy.
  destruct x, y; cbn [re_needs mk_alt andb] in *; rewrite ?Hx, ?Hy; auto.
Qed.

Lemma needs_deriv (c a : ascii) (r : regex) :
  a <> c -> re_needs c r = true -> re_needs c (re_deriv a r) = true.
Proof.
  intros Hne.
  induction r as [| | p | r IHr s IHs | r IHr s IHs | r IHr];
    cbn [re_needs re_deriv]; intros Hr;
    try reflexivity; try discriminate.
  - destruct (p a) eqn:Hpa; [ | reflexivity ].
    rewrite forallb_forall in Hr.
    specialize (Hr a (all_ascii_complete a)). rewrite Hpa in Hr. cbn in Hr.
    apply Ascii.eqb_eq in Hr. contradiction.
  - apply orb_true_iff in Hr as [H1 | H2].
    + rewrite (needs_not_nullable c r H1).
      apply needs_mk_cat. rewrite (IHr H1). reflexivity.
    + destruct (re_nullable r).
      * apply needs_mk_alt; [ | exact (IHs H2) ].
        apply needs_mk_cat. rewrite H2. apply orb_true_r.
      * apply needs_mk_cat. rewrite H2. apply orb_true_r.
  - apply andb_true_iff in Hr as [H1 H2]. apply needs_mk_alt; auto.
Qed.

(** A string the pattern matches has the character every way through the
    pattern asks for. *)
Lemma needs_sound (c : ascii) (s : string) :
  forall r, re_needs c r = true -> re_match r s = true -> has_char c s = true.
Proof.
  induction s as [| a s IH]; intros r Hr Hm; cbn in *.
  - rewrite (needs_not_nullable c r Hr) in Hm. discriminate.
  - destruct (Ascii.eqb_spec a c) as [-> | Hne]; [ reflexivity | ].
    cbn. apply (IH (re_deriv a r)); [ apply needs_deriv; assumption | exact Hm ].
Qed.

Lemma email_pattern_needs_at : re_needs "@" email_pattern = true.
Proof. vm_compute. reflexivity. Qed.

Lemma email_pattern_avoids_LF : re_avoids LF email_pattern = true.
Proof. vm_compute. reflexivity. Qed.

(** X1. Every address the pattern of [SendResetEmail] accepts has an at
    sign and has no line feed. *)
Theorem email_pattern_shape (email : string) :
  re_match email_pattern email = true ->
  has_char "@" email = true /\ has_char LF email = false.
Proof.
  intros Hm. split.
  - exact (needs_sound "@" email email_pattern email_pattern_needs_at Hm).
  - exact (avoids_sound LF email email_pattern email_pattern_avoids_LF Hm).
Qed.

Lemma email_pattern_shape_witness :
  has_char "@" "bob@example.org" = true /\ has_char LF "bob@example.org" = false.
Proof.
  apply (email_pattern_shape "bob@example.org"). vm_compute. reflexivity.
Defined.

(** ** [dao.UserExists] and [dao.Register] *)

Lemma not_blank_test (u : User) :
  not_blank u = true ->
  String.eqb (Username u) "" && String.eqb (Email u) ""
  && String.eqb (Realname u) "" = false.
Proof. unfold not_blank. intros Hb. apply negb_true_iff. exact Hb. Qed.

Lemma filter_length_zero {A} (f : A -> bool) (l : list A) :
  Nat.eqb (length (List.filter f l)) 0 = false <-> exists x, In x l /\ f x = true.
Proof.
  split.
  - intros Hl. destruct (List.filter f l) as [| x xs] eqn:Hf; [ discriminate | ].
    exists x. apply List.filter_In. rewrite Hf. left. reflexivity.
  - intros [x Hx]. apply List.filter_In in Hx.
    destruct (List.filter f l); [ contradiction | reflexivity ].
Qed.

(** The run of [dao.UserExists] on criteria that are not blank. *)
Lemma UserExists_run (w : World) (user : User) (target : string) (st : St) :
  not_blank user = true ->
  dao.UserExists w user target st =
    match w_db_err w (st_stmts st) with
    | Some e => (set_stmts (S (st_stmts st)) st, (false, Some e))
    | None =>
        (set_stmts (S (st_stmts st)) st,
         (negb (Nat.eqb (length (List.filter (where_clause user target)
                                             (user_table (st_db st)))) 0),
          None))
    end.
Proof.
  intros Hb. unfold dao.UserExists. rewrite (not_blank_test user Hb).
  unfold where_clause, target_field, dbind.
  destruct (w_db_err w (st_stmts st)) as [e |] eqn:E.
  - rewrite (query_rows_err _ _ _ e) by exact E. reflexivity.
  - rewrite query_rows_ok by exact E.
    destruct (String.eqb target "username");
      [ | destruct (String.eqb target "email");
          [ | destruct (String.eqb target "realname") ] ];
      match goal with
      | |- context [Nat.eqb (length ?l) 0] => destruct (Nat.eqb (length l) 0)
      end; reflexivity.
Qed.

(** X2. [dao.UserExists] with criteria that are not blank, a target among
    username, email and realname, and the store answering: the answer is
    true exactly when some row has, in the column of the target, the value
    the criteria have in that field, whether that value is empty or not.
    Nothing but the statement counter changes. *)
Theorem UserExists_named_target
    (w : World) (user : User) (target : string) (f : User -> string) (st : St) :
  not_blank user = true ->
  target_field target = Some f ->
  w_db_err w (st_stmts st) = None ->
  exists b : bool,
    dao.UserExists w user target st = (set_stmts (S (st_stmts st)) st, (b, None))
    /\ (b = true <-> exists r, In r (user_table (st_db st)) /\ f r = f user).
Proof.
  intros Hb Hf Hdb. rewrite (UserExists_run w user target st Hb), Hdb.
  eexists. split; [ reflexivity | ].
  rewrite negb_true_iff, filter_length_zero.
  unfold where_clause. rewrite Hf.
  split; intros [r [Hin Heq]]; exists r; split; auto;
    apply String.eqb_eq; exact Heq.
Qed.

(** X3. [dao.UserExists] with criteria that are not blank and a target
    that is none of username, email and realname adds no condition to the
    query: with the store answering, the answer is true exactly when the
    table has a row at all. *)
Theorem UserExists_unnamed_target
    (w : World) (user : User) (target : string) (st : St) :
  not_blank user = true ->
  target_field target = None ->
  w_db_err w (st_stmts st) = None ->
  exists b : bool,
    dao.UserExists w user target st = (set_stmts (S (st_stmts st)) st, (b, None))
    /\ (b = true <-> user_table (st_db st) <> []).
Proof.
  intros Hb Hf Hdb. rewrite (UserExists_run w user target st Hb), Hdb.
  eexists. split; [ reflexivity | ].
  rewrite negb_true_iff, filter_length_zero.
  unfold where_clause. rewrite Hf.
  destruct (user_table (st_db st)) as [| r rows].
  - split; [ intros [x [[] _]] | intros Hne; contradiction ].
  - split; [ discriminate | ]. intros _. exists r. split; [ left | ]; reflexivity.
Qed.

Lemma UserExists_frame (w : World) (user : User) (target : string) (st : St) :
  set_stmts (st_stmts st) (fst (dao.UserExists w user target st)) = st.
Proof.
  destruct (not_blank user) eqn:Hb.
  - rewrite (UserExists_run w user target st Hb).
    destruct (w_db_err w (st_stmts st)); destruct st; reflexivity.
  - unfold dao.UserExists. unfold not_blank in Hb. apply negb_false_iff in Hb.
    rewrite Hb. destruct st; reflexivity.
Qed.

(** X4. [dao.UserExists] never answers true together with an error, and
    whatever it answers, it leaves the table, the session, the response,
    the mail log and the generator as they were; when the store refuses
    the query, the answer is false with the store's error. *)
Theorem UserExists_reads_only
    (w : World) (user : User) (target : string) (st : St) :
  let run := dao.UserExists w user target st in
  (forall err, snd (snd run) = Some err -> fst (snd run) = false)
  /\ set_stmts (st_stmts st) (fst run) = st
  /\ (forall e, not_blank user = true -> w_db_err w (st_stmts st) = Some e ->
      snd run = (false, Some e)).
Proof.
  cbv zeta. split; [ | split; [ apply UserExists_frame | ] ].
  - destruct (not_blank user) eqn:Hb.
    + rewrite (UserExists_run w user target st Hb).
      destruct (w_db_err w (st_stmts st)) as [e |]; cbn [fst snd];
        [ reflexivity | discriminate ].
    + unfold dao.UserExists. unfold not_blank in Hb. apply negb_false_iff in Hb.
      rewrite Hb. reflexivity.
  - intros e Hb He. rewrite (UserExists_run w user target st Hb), He. reflexivity.
Qed.

Section RegisterRuns.
Context `{Externals}.

Lemma Register_ok (w : World) (user : User) (st : St) :
  w_db_err w (st_stmts st) = None ->
  w_db_err w (S (st_stmts st)) = None ->
  dao.Register w user st =
    (mkSt (mkDB (user_table (st_db st) ++
                   [registered_row (w_now w) (last_id (st_db st) + 1)
                      (Encrypt (Password user) (w_random w (st_rand st)))
                      (w_random w (st_rand st)) user])
                (last_id (st_db st) + 1))
          (st_session st) (st_reply st) (st_mail st)
          (S (S (st_stmts st))) (S (st_rand st)),
     (last_id (st_db st) + 1, None)).
Proof.
  intros Hprep Hexec.
  unfold dao.Register, dbind, db_stmt. rewrite Hprep.
  unfold GenerateRandomString.
  rewrite exec_insert_ok by exact Hexec.
  reflexivity.
Qed.

(** X5. [dao.Register] when the store refuses: a refused [Prepare] gives
    id 0 with the error before any salt is drawn; a refused [Exec] gives
    id 0 with the error after the salt was drawn; in both cases no row is
    written. *)
Theorem Register_refused (w : World) (user : User) (st : St) (e : error) :
  (w_db_err w (st_stmts st) = Some e ->
   dao.Register w user st = (set_stmts (S (st_stmts st)) st, (0, Some e)))
  /\ (w_db_err w (st_stmts st) = None ->
      w_db_err w (S (st_stmts st)) = Some e ->
      dao.Register w user st =
        (mkSt (st_db st) (st_session st) (st_reply st) (st_mail st)
              (S (S (st_stmts st))) (S (st_rand st)),
         (0, Some e))).
Proof.
  split.
  - intros Hprep. unfold dao.Register, dbind, db_stmt. rewrite Hprep. reflexivity.
  - intros Hprep Hexec. unfold dao.Register, dbind, db_stmt. rewrite Hprep.
    unfold GenerateRandomString, exec_insert, dbind, db_stmt.
    cbn [st_stmts set_stmts set_rand]. rewrite Hexec. reflexivity.
Qed.

(** X6. Insert and lookup: once [dao.Register] has inserted a user whose
    criteria are not blank, [dao.UserExists] with the same user answers
    true for each of the targets username, email and realname, the store
    answering. *)
Theorem Register_then_UserExists
    (w : World) (user : User) (target : string) (f : User -> string) (st : St) :
  not_blank user = true ->
  target_field target = Some f ->
  w_db_err w (st_stmts st) = None ->
  w_db_err w (S (st_stmts st)) = None ->
  w_db_err w (S (S (st_stmts st))) = None ->
  snd (dao.UserExists w user target (fst (dao.Register w user st))) = (true, None).
Proof.
  intros Hb Hf H0 H1 H2.
  rewrite (Register_ok w user st H0 H1). cbn [fst].
  rewrite (UserExists_run w user target _ Hb). cbn [st_stmts st_db user_table].
  rewrite H2. cbn [snd]. f_equal.
  apply negb_true_iff, filter_length_zero.
  eexists. split; [ apply List.in_or_app; right; left; reflexivity | ].
  unfold where_clause. rewrite Hf. apply String.eqb_eq.
  unfold target_field in Hf.
  destruct (String.eqb target "username"); [ injection Hf as <-; reflexivity | ].
  destruct (String.eqb target "email"); [ injection Hf as <-; reflexivity | ].
  destruct (String.eqb target "realname"); [ injection Hf as <-; reflexivity | ].
  discriminate.
Qed.

(** X7. [dao.Register] does not look for an existing user: registering
    the same user twice, the store accepting the four statements, leaves
    two rows for it, with consecutive ids and with two successive outputs
    of the generator as salts. *)
Theorem Register_twice (w : World) (user : User) (st : St) :
  w_db_err w (st_stmts st) = None ->
  w_db_err w (S (st_stmts st)) = None ->
  w_db_err w (S (S (st_stmts st))) = None ->
  w_db_err w (S (S (S (st_stmts st)))) = None ->
  let id := last_id (st_db st) + 1 in
  let salt1 := w_random w (st_rand st) in
  let salt2 := w_random w (S (st_rand st)) in
  dao.Register w user (fst (dao.Register w user st)) =
    (mkSt (mkDB (user_table (st_db st) ++
                   [registered_row (w_now w) id (Encrypt (Password user) salt1) salt1 user;
                    registered_row (w_now w) (id + 1) (Encrypt (Password user) salt2) salt2 user])
                (id + 1))
          (st_session st) (st_reply st) (st_mail st)
          (S (S (S (S (st_stmts st))))) (S (S (st_rand st))),
     (id + 1, None)).
Proof.
  intros H0 H1 H2 H3 id salt1 salt2.
  rewrite (Register_ok w user st H0 H1). cbn [fst].
  rewrite Register_ok by assumption.
  cbn [st_db st_session st_reply st_mail st_stmts st_rand user_table last_id].
  rewrite <- List.app_assoc. reflexivity.
Qed.

End RegisterRuns.

(** ** The handlers: outcomes and what they leave alone *)

Lemma keeps_front_refl (s : St) : keeps_front s s.
Proof. repeat split. Qed.

Lemma keeps_front_trans (s1 s2 s3 : St) :
  keeps_front s1 s2 -> keeps_front s2 s3 -> keeps_front s1 s3.
Proof.
  unfold keeps_front. intros [A1 [A2 A3]] [B1 [B2 B3]].
  rewrite B1, B2, B3. auto.
Qed.

Lemma query_rows_keeps (w : World) (cond : User -> bool) (s : St) :
  keeps_front s (fst (query_rows w cond s))
  /\ st_db (fst (query_rows w cond s)) = st_db s
  /\ st_rand (fst (query_rows w cond s)) = st_rand s.
Proof.
  unfold query_rows, dbind, db_stmt.
  destruct (w_db_err w (st_stmts s)); repeat split.
Qed.

Lemma exec_update_keeps (w : World) (cond : User -> bool) (f : User -> User) (s : St) :
  keeps_front s (fst (exec_update w cond f s))
  /\ st_rand (fst (exec_update w cond f s)) = st_rand s.
Proof.
  unfold exec_update, dbind, db_stmt.
  destruct (w_db_err w (st_stmts s)); repeat split.
Qed.

Lemma exec_insert_keeps (w : World) (row : User) (s : St) :
  keeps_front s (fst (exec_insert w row s))
  /\ st_rand (fst (exec_insert w row s)) = st_rand s.
Proof.
  unfold exec_insert, dbind, db_stmt.
  destruct (w_db_err w (st_stmts s)); repeat split.
Qed.

Lemma GetUser_keeps (w : World) (q : User) (s : St) :
  keeps_front s (fst (dao.GetUser w q s))
  /\ st_db (fst (dao.GetUser w q s)) = st_db s
  /\ st_rand (fst (dao.GetUser w q s)) = st_rand s.
Proof.
  destruct (GetUser_frame w q s) as [E | E]; rewrite E; repeat split.
Qed.

Section Handlers.
Context `{Externals}.

Lemma auth_Login_keeps (w : World) (m : AuthModel) (s : St) :
  keeps_front s (fst (auth.Login w m s))
  /\ st_db (fst (auth.Login w m s)) = st_db s.
Proof.
  unfold auth.Login, dbind.
  destruct (query_rows_keeps w
              (fun r => String.eqb (Username r) (Principal m)
                        || String.eqb (Email r) (Principal m)) s) as [Hk [Hd _]].
  destruct (query_rows w _ s) as [s1 [rows oe]]. cbn [fst] in *.
  destruct oe as [e |]; [ destruct rows; auto | ].
  destruct rows as [| u rows]; [ auto | ].
  destruct (auth.verify _ _ _); auto.
Qed.

Lemma OnBoardUser_keeps (w : World) (u : User) (s : St) :
  keeps_front s (fst (dao.OnBoardUser w u s))
  /\ st_rand (fst (dao.OnBoardUser w u s)) = st_rand s.
Proof.
  unfold dao.OnBoardUser, dbind.
  destruct (query_rows_keeps w (fun r => String.eqb (Username r) (Username u)) s)
    as [Hk [_ Hr]].
  destruct (query_rows w _ s) as [s1 [rows oe]]. cbn [fst] in *.
  destruct oe as [e |]; [ destruct rows; auto | ].
  destruct rows as [| r rows]; [ | auto ].
  match goal with
  | |- context [exec_insert w ?row s1] =>
      destruct (exec_insert_keeps w row s1) as [Hk2 Hr2];
      destruct (exec_insert w row s1) as [s2 [id oe]]
  end.
  unfold dret. cbn [fst] in *.
  destruct oe; cbn [fst]; (split; [ eauto using keeps_front_trans | congruence ]).
Qed.

Lemma ResetUserPassword_keeps (w : World) (u : User) (s : St) :
  keeps_front s (fst (dao.ResetUserPassword w u s)).
Proof.
  unfold dao.ResetUserPassword, dbind, GenerateRandomString.
  match goal with
  | |- context [exec_update w ?c ?f ?s0] =>
      destruct (exec_update_keeps w c f s0) as [Hk _]
  end.
  exact Hk.
Qed.

(** The run of the controller's [UserExists] in terms of the run of
    [dao.UserExists]. *)
Lemma ctl_UserExists_run (w : World) (rq : Request) (st : St) :
  let target := GetString rq "target" in
  let value := GetString rq "value" in
  let user := if String.eqb target "username" then mkUser 0 value "" "" "" "" 0 "" "" 0 0
              else if String.eqb target "email" then by_email value
              else User0 in
  controllers.UserExists w rq st =
    match dao.UserExists w user target st with
    | (s1, (_, Some _)) => (s1, inl (mkAbort 500 "Internal error."))
    | (s1, (b, None)) => (set_reply (Some (ReplyJSON b)) s1, inr tt)
    end.
Proof.
  cbv zeta. unfold controllers.UserExists, hbind, call, by_email.
  destruct (dao.UserExists w _ _ st) as [s1 [b [e |]]]; reflexivity.
Qed.

(** X8. The controller's [UserExists] has two outcomes.  It aborts with
    status 500 and the body "Internal error." and leaves everything but
    the statement counter as it was; or it returns with a JSON boolean as
    the response, which takes a target that is "username" or "email" and
    a value that is not empty (a missing value is empty), and then too it
    leaves the table, the session and the mail log as they were. *)
Theorem UserExists_outcomes (w : World) (rq : Request) (st : St) :
  let run := controllers.UserExists w rq st in
  (forall a, snd run = inl a ->
     a = mkAbort 500 "Internal error." /\ set_stmts (st_stmts st) (fst run) = st)
  /\ (snd run = inr tt ->
      (GetString rq "target" = "username" \/ GetString rq "target" = "email")
      /\ GetString rq "value" <> ""
      /\ exists b, set_stmts (st_stmts st) (fst run) = set_reply (Some (ReplyJSON b)) st).
Proof.
  cbv zeta. rewrite ctl_UserExists_run. cbv zeta.
  set (target := GetString rq "target"). set (value := GetString rq "value").
  set (user := if String.eqb target "username" then _ else _).
  pose proof (UserExists_frame w user target st) as Hframe.
  destruct (dao.UserExists w user target st) as [s1 [b [e |]]] eqn:Hrun;
    cbn [fst snd] in *.
  - split; [ | discriminate ].
    intros a Ha. injection Ha as <-. split; [ reflexivity | exact Hframe ].
  - split; [ discriminate | ]. intros _.
    assert (Hnb : not_blank user = true).
    { destruct (not_blank user) eqn:Hb; [ reflexivity | exfalso ].
      unfold dao.UserExists in Hrun. unfold not_blank in Hb.
      apply negb_false_iff in Hb. rewrite Hb in Hrun. discriminate. }
    subst user. split; [ | split ].
    + destruct (String.eqb_spec target "username") as [-> | _]; [ left; reflexivity | ].
      destruct (String.eqb_spec target "email") as [-> | _]; [ right; reflexivity | ].
      discriminate.
    + intros Hv. rewrite Hv in Hnb.
      destruct (String.eqb target "username"); [ discriminate | ].
      destruct (String.eqb target "email"); discriminate.
    + exists b. rewrite <- Hframe. destruct s1; reflexivity.
Qed.

(** X9. The controller's [UserExists] for the target "username" or
    "email", a value that is not empty and the store answering: the JSON
    answer is true exactly when some row has the value as its username,
    respectively as its email. *)
Theorem UserExists_answer (w : World) (rq : Request) (f : User -> string) (st : St) :
  (GetString rq "target" = "username" /\ f = Username)
  \/ (GetString rq "target" = "email" /\ f = Email) ->
  GetString rq "value" <> "" ->
  w_db_err w (st_stmts st) = None ->
  exists b : bool,
    controllers.UserExists w rq st =
      (set_reply (Some (ReplyJSON b)) (set_stmts (S (st_stmts st)) st), inr tt)
    /\ (b = true <->
        exists r, In r (user_table (st_db st)) /\ f r = GetString rq "value").
Proof.
  intros Ht Hv Hdb. apply String.eqb_neq in Hv.
  rewrite ctl_UserExists_run. cbv zeta.
  destruct Ht as [[Ht ->] | [Ht ->]]; rewrite Ht; cbn [String.eqb Ascii.eqb Bool.eqb].
  - rewrite UserExists_run by (unfold not_blank; cbn [Username]; rewrite Hv; reflexivity).
    rewrite Hdb. eexists. split; [ reflexivity | ].
    rewrite negb_true_iff, filter_length_zero. unfold where_clause. cbn.
    split; intros [r [Hin Heq]]; exists r; split; auto; apply String.eqb_eq; exact Heq.
  - rewrite UserExists_run
      by (unfold not_blank, by_email; cbn [Username Email]; rewrite Hv; reflexivity).
    rewrite Hdb. eexists. split; [ reflexivity | ].
    rewrite negb_true_iff, filter_length_zero. unfold where_clause. cbn.
    split; intros [r [Hin Heq]]; exists r; split; auto; apply String.eqb_eq; exact Heq.
Qed.

(** *** [Login] *)


(** The two ways [Login] ends, in terms of the state [auth.Login] left. *)
Lemma Login_run (w : World) (rq : Request) (st : St) :
  controllers.Login w rq st =
    match auth.Login w (mkAuthModel (GetString rq "principal")
                                    (GetString rq "password")) st with
    | (s1, (Some u, None)) => (set_session (session_of u (st_session s1)) s1, inr tt)
    | (s1, _) => (s1, inl (mkAbort 401 ""))
    end.
Proof.
  unfold controllers.Login, hbind, call.
  destruct (auth.Login w _ st) as [s1 [[u |] [e |]]]; reflexivity.
Qed.

(** X10. Whatever [auth.Login] returned, an error, no user or both, the
    only failure [Login] answers with is status 401 with an empty body,
    and a failed login leaves the session, the response, the mail log and
    the table as they were. *)
Theorem Login_failure_uniform (w : World) (rq : Request) (st : St) (a : Abort) :
  snd (controllers.Login w rq st) = inl a ->
  a = mkAbort 401 ""
  /\ keeps_front st (fst (controllers.Login w rq st))
  /\ st_db (fst (controllers.Login w rq st)) = st_db st.
Proof.
  rewrite Login_run.
  pose proof (auth_Login_keeps w (mkAuthModel (GetString rq "principal")
                                              (GetString rq "password")) st)
    as [Hk Hd].
  destruct (auth.Login w _ st) as [s1 [[u |] [e |]]]; cbn [fst snd] in *;
    intros Ha; try discriminate; injection Ha as <-; auto.
Qed.


(** *** [ResetPassword] *)


(** X13. [ResetPassword] returns without abort only when the token is not
    empty, the lookup by the token found a user without error, that user
    passed the eligibility check, the password is not empty and
    [dao.ResetUserPassword], handed the found user with the new password,
    returned no error; the state is the one that call left. *)
Theorem ResetPassword_success_only (w : World) (rq : Request) (st st' : St) :
  controllers.ResetPassword w rq st = (st', inr tt) ->
  GetString rq "reset_uuid" <> ""
  /\ GetString rq "password" <> ""
  /\ exists (s1 : St) (user : User),
       dao.GetUser w (by_token (GetString rq "reset_uuid")) st = (s1, (Some user, None))
       /\ controllers.isUserResetable w (Some user) = true
       /\ dao.ResetUserPassword w
            (controllers.with_Password (GetString rq "password") user) s1 = (st', None).
Proof.
  unfold controllers.ResetPassword, hbind, call.
  destruct (String.eqb_spec (GetString rq "reset_uuid") "") as [He | Hne];
    [ discriminate | ].
  destruct (dao.GetUser w _ st) as [s1 [[user |] [e |]]]; try discriminate.
  destruct (controllers.isUserResetable w (Some user)) eqn:Hok; cbn [negb];
    [ | discriminate ].
  destruct (String.eqb_spec (GetString rq "password") "") as [Hp | Hp]; cbn [negb];
    [ discriminate | ].
  destruct (dao.ResetUserPassword w _ s1) as [s2 [e |]] eqn:Hreset;
    [ discriminate | ].
  intros Hrun. injection Hrun as <-.
  split; [ exact Hne | split; [ exact Hp | ] ].
  exists s1, user. auto.
Qed.

(** X14. [ResetPassword] establishes no session: whatever the request and
    the world are, the session, the response and the mail log are left as
    they were, and every abort has status 400, 403 or 500. *)
Theorem ResetPassword_no_session (w : World) (rq : Request) (st : St) :
  keeps_front st (fst (controllers.ResetPassword w rq st))
  /\ (forall a, snd (controllers.ResetPassword w rq st) = inl a ->
        abort_status a = 400 \/ abort_status a = 403 \/ abort_status a = 500).
Proof.
  unfold controllers.ResetPassword, hbind, call.
  destruct (String.eqb (GetString rq "reset_uuid") "");
    [ split; [ apply keeps_front_refl | intros a Ha; injection Ha as <-; auto ] | ].
  pose proof (GetUser_keeps w (by_token (GetString rq "reset_uuid")) st) as [Hk _].
  destruct (dao.GetUser w _ st) as [s1 [[user |] [e |]]]; cbn [fst] in Hk;
    try (split; [ exact Hk | intros a Ha; injection Ha as <-; cbn; auto ]).
  destruct (controllers.isUserResetable w (Some user)); cbn [negb];
    [ | split; [ exact Hk | intros a Ha; injection Ha as <-; cbn; auto ] ].
  destruct (String.eqb (GetString rq "password") ""); cbn [negb];
    [ split; [ exact Hk | intros a Ha; injection Ha as <-; cbn; auto ] | ].
  pose proof (ResetUserPassword_keeps w
                (controllers.with_Password (GetString rq "password") user) s1) as Hk2.
  destruct (dao.ResetUserPassword w _ s1) as [s2 [e |]]; cbn [fst] in Hk2;
    (split; [ exact (keeps_front_trans _ _ _ Hk Hk2)
            | intros a Ha; try discriminate; injection Ha as <-; cbn; auto ]).
Qed.

(** *** [SendResetEmail] *)

(** X15. [SendResetEmail] refuses an email that has no at sign or has a
    line feed, and so an empty or missing one, with status 400 and
    "invalid email"; it does so before it asks the store, draws a token
    or dispatches anything: the state is untouched. *)
Theorem SendResetEmail_invalid_email (w : World) (rq : Request) (st : St) :
  has_char "@" (GetString rq "email") = false
  \/ has_char LF (GetString rq "email") = true ->
  controllers.SendResetEmail w rq st = (st, inl (mkAbort 400 "invalid email")).
Proof.
  intros Hbad.
  assert (Hno : re_match email_pattern (GetString rq "email") = false).
  { destruct (re_match email_pattern (GetString rq "email")) eqn:Hm; [ | reflexivity ].
    pose proof (needs_sound "@" _ _ email_pattern_needs_at Hm) as Hat.
    pose proof (avoids_sound LF _ _ email_pattern_avoids_LF Hm) as Hlf.
    destruct Hbad as [Hb | Hb]; congruence. }
  unfold controllers.SendResetEmail. rewrite Hno. reflexivity.
Qed.

Section ResetRequested.

Variables (w : World) (rq : Request) (st : St) (u : User) (rest : list User).

Let email : string := GetString rq "email".
Let uuid : string := w_random w (st_rand st).

Hypothesis Hvalid : re_match email_pattern email = true.
Hypothesis Hlookup : w_db_err w (st_stmts st) = None.
Hypothesis Hrows :
  List.filter (fun r => String.eqb (Email r) email) (user_table (st_db st)) = u :: rest.
Hypothesis Heligible : controllers.isUserResetable w (Some u) = true.
Hypothesis Hupdate : w_db_err w (S (st_stmts st)) = None.

(** The state once the token is stored and before anything is sent. *)
Let stored : St :=
  mkSt (mkDB (token_stored email uuid (user_table (st_db st))) (last_id (st_db st)))
       (st_session st) (st_reply st) (st_mail st)
       (S (S (st_stmts st))) (S (st_rand st)).

(** The run up to the point where the template is parsed. *)
Lemma SendResetEmail_after_store :
  controllers.SendResetEmail w rq st =
    match w_ParseFiles w "views/reset-password-mail.tpl" with
    | Err err => (stored, inl (mkAbort 500 err))
    | Ok tpl =>
        match w_ExtEndpoint w with
        | Err _ => (stored, inl (mkAbort 500 "Internal Server Error"))
        | Ok url =>
            match tpl (mkDetail (w_Tr w "reset_email_hint") url uuid) with
            | Err _ => (stored, inl (mkAbort 500 "internal_error"))
            | Ok message =>
                match w_Email w with
                | Err _ => (stored, inl (mkAbort 500 "internal_error"))
                | Ok settings =>
                    let mail := reset_mail settings email message in
                    (set_mail (st_mail st ++ [mail]) stored,
                     match w_Send w mail with
                     | Some _ => inl (mkAbort 500 "send_email_failed")
                     | None => inr tt
                     end)
                end
            end
        end
    end.
Proof.
  assert (Hget : dao.GetUser w (by_email email) st =
                 (set_stmts (S (st_stmts st)) st, (Some u, None))).
  { rewrite GetUser_by_email by (auto using valid_email_not_blank).
    rewrite Hrows. reflexivity. }
  unfold controllers.SendResetEmail. fold email. rewrite Hvalid. cbn [negb].
  unfold hbind, call. rewrite Hget, Heligible. cbn [negb].
  unfold GenerateRandomString, dao.UpdateUserResetUUID.
  cbn [Email ResetUUID by_email].
  rewrite exec_update_ok by exact Hupdate.
  cbn [st_rand set_stmts]. fold uuid.
  destruct (w_ParseFiles w "views/reset-password-mail.tpl") as [tpl | e];
    [ | reflexivity ].
  destruct (w_ExtEndpoint w) as [url | e]; [ | reflexivity ].
  destruct (tpl _) as [message | e]; [ | reflexivity ].
  destruct (w_Email w) as [settings | e]; [ | reflexivity ].
  unfold controllers.Send. fold (reset_mail settings email message).
  cbv zeta. destruct (w_Send w _); reflexivity.
Qed.

(** X16. [SendResetEmail] for the email of a user who may reset, when
    every collaborator answers: the handler returns, exactly one mail was
    dispatched, to the requested address alone, and its text is the
    template executed on the very token that is now the reset token of
    the user. *)
Theorem SendResetEmail_mails_stored_token
    (tpl : Template) (url message : string) (settings : EmailSettings) :
  w_ParseFiles w "views/reset-password-mail.tpl" = Ok tpl ->
  w_ExtEndpoint w = Ok url ->
  tpl (mkDetail (w_Tr w "reset_email_hint") url uuid) = Ok message ->
  w_Email w = Ok settings ->
  w_Send w (reset_mail settings email message) = None ->
  controllers.SendResetEmail w rq st =
    (set_mail (st_mail st ++ [reset_mail settings email message]) stored, inr tt)
  /\ mail_to (reset_mail settings email message) = [email]
  /\ In (dao.with_ResetUUID uuid u) (user_table (st_db stored)).
Proof.
  intros Htpl Hurl Hmsg Hset Hsend.
  rewrite SendResetEmail_after_store, Htpl, Hurl, Hmsg, Hset. cbv zeta.
  rewrite Hsend. split; [ reflexivity | split; [ reflexivity | ] ].
  cbn [stored st_db user_table]. unfold token_stored.
  apply List.in_map_iff. exists u.
  assert (Hin : In u (List.filter (fun r => String.eqb (Email r) email)
                                  (user_table (st_db st))))
    by (rewrite Hrows; left; reflexivity).
  apply List.filter_In in Hin as [Hin Heq]. rewrite Heq. auto.
Qed.

(** X17. Between storing the token and dispatching the mail
    [SendResetEmail] can fail in four places, and each leaves the token
    stored with nothing dispatched: a template that does not parse
    (status 500 with the text of the error as body), an endpoint that
    cannot be read (500, "Internal Server Error"), a template that does
    not execute and mail settings that cannot be read (500,
    "internal_error"). *)
Theorem SendResetEmail_stored_not_sent (e : error) :
  (w_ParseFiles w "views/reset-password-mail.tpl" = Err e ->
   controllers.SendResetEmail w rq st = (stored, inl (mkAbort 500 e)))
  /\ (forall tpl,
        w_ParseFiles w "views/reset-password-mail.tpl" = Ok tpl ->
        (w_ExtEndpoint w = Err e ->
         controllers.SendResetEmail w rq st =
           (stored, inl (mkAbort 500 "Internal Server Error")))
        /\ (forall url,
              w_ExtEndpoint w = Ok url ->
              (tpl (mkDetail (w_Tr w "reset_email_hint") url uuid) = Err e ->
               controllers.SendResetEmail w rq st =
                 (stored, inl (mkAbort 500 "internal_error")))
              /\ (forall message,
                    tpl (mkDetail (w_Tr w "reset_email_hint") url uuid) = Ok message ->
                    w_Email w = Err e ->
                    controllers.SendResetEmail w rq st =
                      (stored, inl (mkAbort 500 "internal_error"))))).
Proof.
  rewrite SendResetEmail_after_store.
  split; [ intros ->; reflexivity | ].
  intros tpl ->. split; [ intros ->; reflexivity | ].
  intros url ->. split; [ intros ->; reflexivity | ].
  intros message -> ->. reflexivity.
Qed.

End ResetRequested.

(** Closes a branch of a run whose final state is given in terms of the
    state the lookup left, with the four equations of the lookup. *)
Ltac ends_framed Hs Hr Hd Hn :=
  let a := fresh "a" in
  let Ha := fresh "Ha" in
  cbn; rewrite ?Hs, ?Hr, ?Hd, ?Hn; repeat split; auto;
  intros a Ha; try discriminate; injection Ha as <-; cbn; auto.

(** X18. [SendResetEmail] establishes no session and writes no response,
    whatever the request and the world are; it draws at most one random
    string; the rows of the table are either untouched or differ in the
    reset token of the rows with the requested email only; and every
    abort has status 400, 403, 404 or 500. *)
Theorem SendResetEmail_no_session (w : World) (rq : Request) (st : St) :
  let run := controllers.SendResetEmail w rq st in
  st_session (fst run) = st_session st
  /\ st_reply (fst run) = st_reply st
  /\ (st_rand (fst run) = st_rand st \/ st_rand (fst run) = S (st_rand st))
  /\ (user_table (st_db (fst run)) = user_table (st_db st)
      \/ user_table (st_db (fst run)) =
           token_stored (GetString rq "email") (w_random w (st_rand st))
                        (user_table (st_db st)))
  /\ (forall a, snd run = inl a ->
        abort_status a = 400 \/ abort_status a = 403
        \/ abort_status a = 404 \/ abort_status a = 500).
Proof.
  cbv zeta. unfold controllers.SendResetEmail.
  destruct (re_match email_pattern (GetString rq "email")); cbn [negb];
    [ | repeat split; auto; intros a Ha; injection Ha as <-; cbn; auto ].
  unfold hbind, call.
  pose proof (GetUser_keeps w (by_email (GetString rq "email")) st)
    as [[Hs [Hr _]] [Hd Hn]].
  destruct (dao.GetUser w _ st) as [s1 [[u |] [e |]]]; cbn [fst] in *;
    try (ends_framed Hs Hr Hd Hn).
  destruct (controllers.isUserResetable w (Some u)); cbn [negb];
    [ | ends_framed Hs Hr Hd Hn ].
  unfold GenerateRandomString, dao.UpdateUserResetUUID, exec_update, dbind, db_stmt.
  cbn [Email ResetUUID by_email st_stmts set_rand st_rand].
  unfold token_stored.
  destruct (w_db_err w (st_stmts s1)) as [e |];
    [ ends_framed Hs Hr Hd Hn | ].
  destruct (w_ParseFiles w "views/reset-password-mail.tpl") as [tpl | e];
    [ | ends_framed Hs Hr Hd Hn ].
  destruct (w_ExtEndpoint w) as [url | e];
    [ | ends_framed Hs Hr Hd Hn ].
  destruct (tpl _) as [message | e];
    [ | ends_framed Hs Hr Hd Hn ].
  destruct (w_Email w) as [settings | e];
    [ | ends_framed Hs Hr Hd Hn ].
  unfold controllers.Send.
  destruct (w_Send w _); ends_framed Hs Hr Hd Hn.
Qed.

(** *** [Oauth] *)

(** What the parser has checked when it returns a token under the key
    function of [Oauth]. *)
Lemma ParseWithClaims_checked (w : World) (tok : string) (t : Token) :
  controllers.ParseWithClaims w tok controllers.oauth_keyFunc = Ok t ->
  jwt_decode tok = Some t
  /\ Method t = SigningMethodHS256
  /\ jwt_claims_valid (w_now w) (Claims t) = true
  /\ jwt_verify SigningMethodHS256 (Raw t) oauth_key = true.
Proof.
  unfold controllers.ParseWithClaims, controllers.oauth_keyFunc.
  destruct (jwt_decode tok) as [t0 |]; [ | discriminate ].
  destruct (bool_decide (Method t0 = SigningMethodHS256)) eqn:Hm; cbn [negb];
    [ | discriminate ].
  apply bool_decide_eq_true in Hm.
  destruct (jwt_claims_valid (w_now w) (Claims t0)) eqn:Hc; cbn [negb];
    [ | discriminate ].
  destruct (jwt_verify (Method t0) (Raw t0) _) eqn:Hv; cbn [negb];
    [ | discriminate ].
  intros Ht. injection Ht as <-. rewrite Hm in Hv. auto.
Qed.

(** X19. [Oauth] ends in a session only for a token that passed every
    check: the certificate pool and the configuration were loaded, the
    provider exchanged the code of the request for a token, the token
    decoded, its method is HS256, its claims are valid at the time of the
    request and its signature verifies under the key of the handler.  The
    response then is the redirect to "/harbor" with status 302 and the
    session holds the three keys of one user record. *)
Theorem Oauth_success_only (w : World) (rq : Request) (st st' : St) :
  controllers.Oauth w rq st = (st', inr tt) ->
  exists (cfg : OAuthConf) (tok : string) (t : Token) (u : User),
    w_SystemCertPool w = None
    /\ w_OAuthConf w = Ok cfg
    /\ w_Exchange w cfg (GetString rq "code") = Ok tok
    /\ jwt_decode tok = Some t
    /\ Method t = SigningMethodHS256
    /\ jwt_claims_valid (w_now w) (Claims t) = true
    /\ jwt_verify SigningMethodHS256 (Raw t) oauth_key = true
    /\ st_reply st' = Some (ReplyRedirect "/harbor" 302)
    /\ st_session st' = session_of u (st_session st).
Proof.
  unfold controllers.Oauth.
  destruct (w_SystemCertPool w) as [e |] eqn:Hpool; [ discriminate | ].
  destruct (w_OAuthConf w) as [cfg | e] eqn:Hcfg; [ | discriminate ].
  destruct (w_Exchange w cfg (GetString rq "code")) as [tok | e] eqn:Hex;
    [ | discriminate ].
  destruct (controllers.ParseWithClaims w tok controllers.oauth_keyFunc)
    as [t | e] eqn:Hparse; [ | discriminate ].
  apply ParseWithClaims_checked in Hparse as [Hdec [Hm [Hc Hv]]].
  unfold hbind, call, controllers.createUser, dbind.
  match goal with
  | |- context [dao.OnBoardUser w ?q st] =>
      pose proof (OnBoardUser_keeps w q st) as [[Hs _] _];
      destruct (dao.OnBoardUser w q st) as [s1 [u [e |]]]
  end; cbn [fst] in Hs; [ discriminate | ].
  intros Hrun. injection Hrun as <-.
  exists cfg, tok, t, u. cbn [st_reply st_session set_reply set_session].
  rewrite Hs. repeat split; auto.
Qed.

(** X20. [Oauth] that fails has established nothing: every abort has
    status 500 and leaves the session, the response and the mail log as
    they were, and unless the abort is the one of a failed onboarding
    (body "500") the whole state is as it was, so that no statement was
    sent to the store. *)
Theorem Oauth_failure_no_session (w : World) (rq : Request) (st : St) (a : Abort) :
  snd (controllers.Oauth w rq st) = inl a ->
  abort_status a = 500
  /\ keeps_front st (fst (controllers.Oauth w rq st))
  /\ (abort_body a <> "500" -> fst (controllers.Oauth w rq st) = st).
Proof.
  unfold controllers.Oauth.
  destruct (w_SystemCertPool w) as [e |];
    [ intros Ha; injection Ha as <-; repeat split | ].
  destruct (w_OAuthConf w) as [cfg | e];
    [ | intros Ha; injection Ha as <-; repeat split ].
  destruct (w_Exchange w cfg (GetString rq "code")) as [tok | e];
    [ | intros Ha; injection Ha as <-; repeat split ].
  destruct (controllers.ParseWithClaims w tok controllers.oauth_keyFunc) as [t | e];
    [ | intros Ha; injection Ha as <-; repeat split ].
  unfold hbind, call, controllers.createUser, dbind.
  match goal with
  | |- context [dao.OnBoardUser w ?q st] =>
      pose proof (OnBoardUser_keeps w q st) as [Hk _];
      destruct (dao.OnBoardUser w q st) as [s1 [u [e |]]]
  end; cbn [fst] in Hk; [ | discriminate ].
  intros Ha. injection Ha as <-. cbn.
  split; [ reflexivity | split; [ exact Hk | ] ].
  intros Hne. contradiction Hne. reflexivity.
Qed.

End Handlers.

(** ** Round trips *)

Lemma filter_map_swap {A} (p : A -> bool) (g : A -> A) (l : list A) :
  List.filter p (List.map g l) = List.map g (List.filter (fun x => p (g x)) l).
Proof.
  induction l as [| a l IH]; [ reflexivity | ].
  cbn. destruct (p (g a)); cbn; rewrite IH; reflexivity.
Qed.

Section RoundTrips.
Context `{Externals}.

(** X21. Register, then log in.  A user registered with the store
    accepting, whose username is neither the username nor the email of an
    earlier row, logs in with that username and the registered password:
    the session then holds the id that [Register] returned and the
    username.  The salt and hash that [Register] stored are the ones the
    verification of section 4.3 recomputes. *)
Theorem Register_then_Login (w : World) (user : User) (rq : Request) (st : St) :
  GetString rq "principal" = Username user ->
  GetString rq "password" = Password user ->
  (forall r, In r (user_table (st_db st)) ->
     Username r <> Username user /\ Email r <> Username user) ->
  w_db_err w (st_stmts st) = None ->
  w_db_err w (S (st_stmts st)) = None ->
  w_db_err w (S (S (st_stmts st))) = None ->
  exists st2 : St,
    controllers.Login w rq (fst (dao.Register w user st)) = (st2, inr tt)
    /\ st_session st2 !! "userId" = Some (VInt (fst (snd (dao.Register w user st))))
    /\ st_session st2 !! "username" = Some (VStr (Username user)).
Proof.
  intros Hp Hs Hfresh H0 H1 H2.
  rewrite (Register_ok w user st H0 H1). cbn [fst snd].
  rewrite Login_run. unfold auth.Login, dbind. cbn [Principal AuthPassword].
  rewrite query_rows_ok by exact H2.
  cbn [st_db user_table]. rewrite List.filter_app.
  rewrite filter_none.
  2:{ intros r Hr. destruct (Hfresh r Hr) as [Hu He].
      rewrite Hp. apply orb_false_iff. split; apply String.eqb_neq; assumption. }
  cbn [app List.filter registered_row Username Email].
  rewrite Hp, String.eqb_refl. cbn [orb].
  unfold auth.verify. cbn [Salt Password]. rewrite Hs, String.eqb_refl.
  eexists. split; [ reflexivity | ].
  cbn [st_session set_session]. unfold session_of. cbn [UserID Username].
  split.
  - rewrite lookup_insert_ne by discriminate.
    rewrite lookup_insert_ne by discriminate. apply lookup_insert_eq.
  - rewrite lookup_insert_ne by discriminate. apply lookup_insert_eq.
Qed.

(** Redeeming the token that a request stored. *)
Lemma redeem_stored_token
    (w w2 : World) (rq rq2 : Request) (st : St) (u : User) (rest : list User) :
  let email := GetString rq "email" in
  let uuid := w_random w (st_rand st) in
  let stored :=
    mkSt (mkDB (token_stored email uuid (user_table (st_db st))) (last_id (st_db st)))
         (st_session st) (st_reply st) (st_mail st)
         (S (S (st_stmts st))) (S (st_rand st)) in
  List.filter (fun r => String.eqb (Email r) email) (user_table (st_db st)) = u :: rest ->
  (forall r, In r (user_table (st_db st)) -> ResetUUID r <> uuid) ->
  uuid <> "" ->
  GetString rq2 "reset_uuid" = uuid ->
  GetString rq2 "password" <> "" ->
  controllers.isUserResetable w2 (Some (dao.with_ResetUUID uuid u)) = true ->
  w_db_err w2 (S (S (st_stmts st))) = None ->
  w_db_err w2 (S (S (S (st_stmts st)))) = None ->
  forall mails : list Mail,
  exists st3 : St,
    controllers.ResetPassword w2 rq2 (set_mail mails stored) = (st3, inr tt)
    /\ In (mkUser (UserID u) (Username u) (Email u)
                  (Encrypt (GetString rq2 "password") (w_random w2 (S (st_rand st))))
                  (Realname u) (Comment u) (HasAdminRole u) ""
                  (w_random w2 (S (st_rand st))) (CreationTime u) (w_now w2))
          (user_table (st_db st3))
    /\ (forall r, In r (user_table (st_db st3)) -> ResetUUID r <> uuid).
Proof.
  intros email uuid stored Hrows Hfresh Hne Htok Hpw Hok Hdb1 Hdb2 mails.
  assert (Hfound :
    List.filter (fun r => String.eqb (ResetUUID r) uuid)
                (token_stored email uuid (user_table (st_db st))) =
    List.map (fun r => if String.eqb (Email r) email
                       then dao.with_ResetUUID uuid r else r) (u :: rest)).
  { unfold token_stored. rewrite filter_map_swap, <- Hrows. f_equal.
    apply List.filter_ext_in. intros r Hr.
    destruct (String.eqb (Email r) email); cbn [dao.with_ResetUUID ResetUUID].
    - apply String.eqb_refl.
    - apply String.eqb_neq. apply Hfresh. exact Hr. }
  assert (Hu : String.eqb (Email u) email = true).
  { assert (Hin : In u (List.filter (fun r => String.eqb (Email r) email)
                                    (user_table (st_db st))))
      by (rewrite Hrows; left; reflexivity).
    apply List.filter_In in Hin as [_ Heq]. exact Heq. }
  pose proof Hne as Hne'. apply String.eqb_neq in Hne'.
  pose proof Hpw as Hpw'. apply String.eqb_neq in Hpw'.
  unfold controllers.ResetPassword, hbind, call.
  rewrite Htok, Hne'.
  rewrite GetUser_by_token by (cbn; assumption).
  cbn [st_db set_mail stored user_table]. rewrite Hfound.
  cbn [List.map List.head]. rewrite Hu, Hok, Hpw'. cbn [negb].
  unfold dao.ResetUserPassword, dbind, GenerateRandomString.
  rewrite exec_update_ok by (cbn; assumption).
  eexists. split; [ reflexivity | ].
  cbn [st_db set_db user_table controllers.with_Password dao.with_ResetUUID
       ResetUUID Password st_rand set_mail set_stmts set_rand].
  split.
  - apply List.in_map_iff. exists (dao.with_ResetUUID uuid u). split.
    + cbn [dao.with_ResetUUID ResetUUID]. rewrite String.eqb_refl. reflexivity.
    + unfold token_stored. apply List.in_map_iff. exists u. rewrite Hu. split; auto.
      assert (Hin : In u (List.filter (fun r => String.eqb (Email r) email)
                                      (user_table (st_db st))))
        by (rewrite Hrows; left; reflexivity).
      apply List.filter_In in Hin as [Hin _]. exact Hin.
  - intros r Hr. apply List.in_map_iff in Hr as [r0 [<- _]].
    destruct (String.eqb_spec (ResetUUID r0) uuid) as [_ | Hd].
    + cbn [ResetUUID]. intros Habs. apply Hne. symmetry. exact Habs.
    + exact Hd.
Qed.

(** X22. Request, then redeem.  After [SendResetEmail] stored a token
    that is not empty and was the token of no row before, whether or not
    the mail went out afterwards, [ResetPassword] with that token and a
    password that is not empty, for a user still eligible and with the
    store answering, returns without abort; the user's row then has the
    hash of the new password under a fresh salt, and no row holds the
    token any more.  The store functions are the ones described in
    sections 4.1 and 4.4. *)
Theorem reset_round_trip
    (w w2 : World) (rq rq2 : Request) (st : St) (u : User) (rest : list User) :
  let email := GetString rq "email" in
  let uuid := w_random w (st_rand st) in
  re_match email_pattern email = true ->
  w_db_err w (st_stmts st) = None ->
  List.filter (fun r => String.eqb (Email r) email) (user_table (st_db st)) = u :: rest ->
  controllers.isUserResetable w (Some u) = true ->
  w_db_err w (S (st_stmts st)) = None ->
  (forall r, In r (user_table (st_db st)) -> ResetUUID r <> uuid) ->
  uuid <> "" ->
  GetString rq2 "reset_uuid" = uuid ->
  GetString rq2 "password" <> "" ->
  controllers.isUserResetable w2 (Some (dao.with_ResetUUID uuid u)) = true ->
  w_db_err w2 (S (S (st_stmts st))) = None ->
  w_db_err w2 (S (S (S (st_stmts st)))) = None ->
  exists st3 : St,
    controllers.ResetPassword w2 rq2 (fst (controllers.SendResetEmail w rq st)) =
      (st3, inr tt)
    /\ In (mkUser (UserID u) (Username u) (Email u)
                  (Encrypt (GetString rq2 "password") (w_random w2 (S (st_rand st))))
                  (Realname u) (Comment u) (HasAdminRole u) ""
                  (w_random w2 (S (st_rand st))) (CreationTime u) (w_now w2))
          (user_table (st_db st3))
    /\ (forall r, In r (user_table (st_db st3)) -> ResetUUID r <> uuid).
Proof.
  intros email uuid Hvalid Hdb Hrows Hok Hdb' Hfresh Hne Htok Hpw Hok2 Hdb1 Hdb2.
  pose proof (redeem_stored_token w w2 rq rq2 st u rest Hrows Hfresh Hne Htok Hpw
                Hok2 Hdb1 Hdb2) as Hredeem.
  cbv zeta in Hredeem. fold email uuid in Hredeem.
  rewrite (SendResetEmail_after_store w rq st u rest Hvalid Hdb Hrows Hok Hdb').
  fold email uuid.
  destruct (w_ParseFiles w "views/reset-password-mail.tpl") as [tpl | e];
    [ | exact (Hredeem (st_mail st)) ].
  destruct (w_ExtEndpoint w) as [url | e]; [ | exact (Hredeem (st_mail st)) ].
  destruct (tpl _) as [message | e]; [ | exact (Hredeem (st_mail st)) ].
  destruct (w_Email w) as [settings | e]; [ | exact (Hredeem (st_mail st)) ].
  cbv zeta. cbn [fst]. apply Hredeem.
Qed.

End RoundTrips.

Section OauthTokens.
Context `{Externals}.

(** X23. [Oauth] treats every token the parser does not return alike: a
    token that does not decode, one whose claims are not valid at the
    time of the request, and an HS256 token whose signature does not
    verify under the key of the handler all end in status 500 with the
    body "error parsing oauth response", the state untouched. *)
Theorem Oauth_rejects_unverified_token
    (w : World) (rq : Request) (st : St) (cfg : OAuthConf) (tok : string) :
  w_SystemCertPool w = None ->
  w_OAuthConf w = Ok cfg ->
  w_Exchange w cfg (GetString rq "code") = Ok tok ->
  jwt_decode tok = None
  \/ (exists t, jwt_decode tok = Some t
                /\ (jwt_claims_valid (w_now w) (Claims t) = false
                    \/ jwt_verify (Method t) (Raw t) oauth_key = false)) ->
  controllers.Oauth w rq st =
    (st, inl (mkAbort 500 "error parsing oauth response")).
Proof.
  intros Hpool Hcfg Hex Hbad.
  unfold controllers.Oauth. rewrite Hpool, Hcfg, Hex.
  unfold controllers.ParseWithClaims.
  destruct Hbad as [Hdec | [t [Hdec Hbad]]]; rewrite Hdec; [ reflexivity | ].
  unfold controllers.oauth_keyFunc.
  destruct (bool_decide (Method t = SigningMethodHS256)); cbn [negb];
    [ | reflexivity ].
  fold oauth_key.
  destruct Hbad as [Hc | Hv].
  - rewrite Hc. reflexivity.
  - rewrite Hv. destruct (jwt_claims_valid _ _); reflexivity.
Qed.

End OauthTokens.

(** * The further properties at work in the demo world *)

Lemma UserExists_named_target_witness :
  exists b : bool,
    dao.UserExists demo_world (by_email "bob@example.org") "email" demo_st =
      (set_stmts 1 demo_st, (b, None))
    /\ (b = true <->
        exists r, In r (user_table (st_db demo_st)) /\ Email r = "bob@example.org").
Proof.
  apply (UserExists_named_target demo_world (by_email "bob@example.org") "email"
           Email demo_st); reflexivity.
Defined.

Lemma UserExists_unnamed_target_witness :
  exists b : bool,
    dao.UserExists demo_world (by_email "nobody@example.org") "mail" demo_st =
      (set_stmts 1 demo_st, (b, None))
    /\ (b = true <-> user_table (st_db demo_st) <> []).
Proof.
  apply (UserExists_unnamed_target demo_world (by_email "nobody@example.org") "mail"
           demo_st); reflexivity.
Defined.

Lemma UserExists_reads_only_witness :
  snd (dao.UserExists db_down_world (by_email "bob@example.org") "email" demo_st) =
    (false, Some "connection lost")
  /\ set_stmts 0 (fst (dao.UserExists db_down_world (by_email "bob@example.org")
                         "email" demo_st)) = demo_st.
Proof.
  pose proof (UserExists_reads_only db_down_world (by_email "bob@example.org")
                "email" demo_st) as [_ [Hframe Herr]].
  split; [ apply Herr; reflexivity | exact Hframe ].
Defined.

Lemma Register_refused_witness :
  dao.Register db_down_world carol demo_st =
    (set_stmts 1 demo_st, (0, Some "connection lost"))
  /\ dao.Register second_refused_world carol demo_st =
       (mkSt (st_db demo_st) ∅ None [] 2 1, (0, Some "Duplicate entry")).
Proof.
  split.
  - apply (proj1 (Register_refused (H := demo_externals) db_down_world carol demo_st
                    "connection lost")).
    reflexivity.
  - apply (proj2 (Register_refused (H := demo_externals) second_refused_world carol
                    demo_st "Duplicate entry")); reflexivity.
Defined.

Lemma Register_then_UserExists_witness :
  snd (dao.UserExists demo_world carol "username"
         (fst (dao.Register demo_world carol demo_st))) = (true, None).
Proof.
  apply (Register_then_UserExists (H := demo_externals) demo_world carol "username"
           Username demo_st); reflexivity.
Defined.

Lemma Register_twice_witness :
  List.map (fun r => (UserID r, Username r, Salt r))
    (user_table (st_db (fst (dao.Register demo_world carol
                               (fst (dao.Register demo_world carol demo_st)))))) =
    [(1, "admin", "s1"); (2, "bob", "s2");
     (3, "carol", "uuid-0"); (4, "carol", "uuid-1")].
Proof.
  rewrite (Register_twice (H := demo_externals) demo_world carol demo_st
             eq_refl eq_refl eq_refl eq_refl).
  reflexivity.
Defined.

Lemma UserExists_outcomes_witness :
  (GetString [("target", "email"); ("value", "bob@example.org")] "target" = "username"
   \/ GetString [("target", "email"); ("value", "bob@example.org")] "target" = "email")
  /\ set_stmts 0 (fst (controllers.UserExists demo_world [("target", "username")]
                         demo_st)) = demo_st.
Proof.
  split.
  - apply (proj2 (UserExists_outcomes demo_world
                    [("target", "email"); ("value", "bob@example.org")] demo_st)).
    reflexivity.
  - apply (proj1 (UserExists_outcomes demo_world
                    [("target", "username")] demo_st)
             (mkAbort 500 "Internal error.")).
    reflexivity.
Defined.

Lemma UserExists_answer_witness :
  exists b : bool,
    controllers.UserExists demo_world [("target", "username"); ("value", "bob")] demo_st =
      (set_reply (Some (ReplyJSON b)) (set_stmts 1 demo_st), inr tt)
    /\ (b = true <-> exists r, In r (user_table (st_db demo_st)) /\ Username r = "bob").
Proof.
  apply (UserExists_answer demo_world [("target", "username"); ("value", "bob")]
           Username demo_st);
    [ left; split; reflexivity | discriminate | reflexivity ].
Defined.

Lemma Login_failure_uniform_witness :
  mkAbort 401 "" = mkAbort 401 ""
  /\ keeps_front demo_st
       (fst (controllers.Login db_down_world
               [("principal", "bob"); ("password", "hunter2")] demo_st))
  /\ st_db (fst (controllers.Login db_down_world
                   [("principal", "bob"); ("password", "hunter2")] demo_st)) =
     st_db demo_st.
Proof.
  apply (Login_failure_uniform (H := demo_externals) db_down_world
           [("principal", "bob"); ("password", "hunter2")] demo_st (mkAbort 401 "")).
  reflexivity.
Defined.



Lemma ResetPassword_success_only_witness :
  exists (s1 : St) (user : User),
    dao.GetUser demo_world (by_token "uuid-0") pending_st = (s1, (Some user, None))
    /\ controllers.isUserResetable demo_world (Some user) = true
    /\ dao.ResetUserPassword demo_world (controllers.with_Password "new" user) s1 =
         (fst (controllers.ResetPassword demo_world
                 [("reset_uuid", "uuid-0"); ("password", "new")] pending_st), None).
Proof.
  apply (ResetPassword_success_only (H := demo_externals) demo_world
           [("reset_uuid", "uuid-0"); ("password", "new")] pending_st
           (fst (controllers.ResetPassword demo_world
                   [("reset_uuid", "uuid-0"); ("password", "new")] pending_st))).
  reflexivity.
Defined.

Lemma ResetPassword_no_session_witness :
  keeps_front pending_st
    (fst (controllers.ResetPassword demo_world
            [("reset_uuid", "uuid-0"); ("password", "new")] pending_st))
  /\ (abort_status (mkAbort 403 "Forbidden") = 400
      \/ abort_status (mkAbort 403 "Forbidden") = 403
      \/ abort_status (mkAbort 403 "Forbidden") = 500).
Proof.
  split.
  - apply (proj1 (ResetPassword_no_session (H := demo_externals) demo_world
                    [("reset_uuid", "uuid-0"); ("password", "new")] pending_st)).
  - apply (proj2 (ResetPassword_no_session (H := demo_externals) ldap_world
                    [("reset_uuid", "uuid-0"); ("password", "new")] pending_st)).
    reflexivity.
Defined.

Lemma SendResetEmail_invalid_email_witness :
  controllers.SendResetEmail demo_world [("email", "bob.example.org")] demo_st =
    (demo_st, inl (mkAbort 400 "invalid email"))
  /\ controllers.SendResetEmail demo_world [] demo_st =
       (demo_st, inl (mkAbort 400 "invalid email")).
Proof.
  split.
  - apply (SendResetEmail_invalid_email (H := demo_externals) demo_world
             [("email", "bob.example.org")] demo_st).
    left. reflexivity.
  - apply (SendResetEmail_invalid_email (H := demo_externals) demo_world [] demo_st).
    left. reflexivity.
Defined.

Lemma SendResetEmail_mails_stored_token_witness :
  let message :=
    "reset_email_hint https://harbor.example.org/reset_password?reset_uuid=uuid-0" in
  controllers.SendResetEmail demo_world [("email", "bob@example.org")] demo_st =
    (mkSt (mkDB [admin; dao.with_ResetUUID "uuid-0" bob] 2) ∅ None
          [reset_mail demo_settings "bob@example.org" message] 2 1,
     inr tt).
Proof.
  cbv zeta.
  apply (proj1 (SendResetEmail_mails_stored_token (H := demo_externals) demo_world
                  [("email", "bob@example.org")] demo_st bob []
                  eq_refl eq_refl eq_refl eq_refl eq_refl
                  demo_template "https://harbor.example.org"
                  "reset_email_hint https://harbor.example.org/reset_password?reset_uuid=uuid-0"
                  demo_settings eq_refl eq_refl eq_refl eq_refl eq_refl)).
Defined.

Lemma SendResetEmail_stored_not_sent_witness :
  controllers.SendResetEmail no_template_world [("email", "bob@example.org")] demo_st =
    (mkSt (mkDB [admin; dao.with_ResetUUID "uuid-0" bob] 2) ∅ None [] 2 1,
     inl (mkAbort 500 "open views/reset-password-mail.tpl: no such file")).
Proof.
  apply (proj1 (SendResetEmail_stored_not_sent (H := demo_externals) no_template_world
                  [("email", "bob@example.org")] demo_st bob []
                  eq_refl eq_refl eq_refl eq_refl eq_refl
                  "open views/reset-password-mail.tpl: no such file")).
  reflexivity.
Defined.

Lemma SendResetEmail_no_session_witness :
  st_session (fst (controllers.SendResetEmail demo_world
                     [("email", "bob@example.org")] demo_st)) = ∅
  /\ (abort_status (mkAbort 404 "email_does_not_exist") = 400
      \/ abort_status (mkAbort 404 "email_does_not_exist") = 403
      \/ abort_status (mkAbort 404 "email_does_not_exist") = 404
      \/ abort_status (mkAbort 404 "email_does_not_exist") = 500).
Proof.
  split.
  - apply (proj1 (SendResetEmail_no_session (H := demo_externals) demo_world
                    [("email", "bob@example.org")] demo_st)).
  - apply (proj2 (proj2 (proj2 (proj2
             (SendResetEmail_no_session (H := demo_externals) demo_world
                [("email", "carol@example.org")] demo_st))))).
    reflexivity.
Defined.

Lemma Oauth_success_only_witness :
  exists (cfg : OAuthConf) (tok : string) (t : Token) (u : User),
    w_SystemCertPool demo_world = None
    /\ w_OAuthConf demo_world = Ok cfg
    /\ w_Exchange demo_world cfg "jwt-hs256-alice" = Ok tok
    /\ jwt_decode tok = Some t
    /\ Method t = SigningMethodHS256
    /\ jwt_claims_valid (w_now demo_world) (Claims t) = true
    /\ jwt_verify SigningMethodHS256 (Raw t) oauth_key = true
    /\ st_reply (fst (controllers.Oauth demo_world [("code", "jwt-hs256-alice")] demo_st)) =
         Some (ReplyRedirect "/harbor" 302)
    /\ st_session (fst (controllers.Oauth demo_world [("code", "jwt-hs256-alice")] demo_st)) =
         session_of u ∅.
Proof.
  apply (Oauth_success_only (H := demo_externals) demo_world
           [("code", "jwt-hs256-alice")] demo_st
           (fst (controllers.Oauth demo_world [("code", "jwt-hs256-alice")] demo_st))).
  reflexivity.
Defined.

Lemma Oauth_failure_no_session_witness :
  abort_status (mkAbort 500 "error retrieving oauth token") = 500
  /\ keeps_front demo_st
       (fst (controllers.Oauth no_provider_world [("code", "jwt-hs256-alice")] demo_st))
  /\ (abort_body (mkAbort 500 "error retrieving oauth token") <> "500" ->
      fst (controllers.Oauth no_provider_world [("code", "jwt-hs256-alice")] demo_st) =
      demo_st).
Proof.
  apply (Oauth_failure_no_session (H := demo_externals) no_provider_world
           [("code", "jwt-hs256-alice")] demo_st
           (mkAbort 500 "error retrieving oauth token")).
  reflexivity.
Defined.

Lemma Register_then_Login_witness :
  exists st2 : St,
    controllers.Login demo_world [("principal", "carol"); ("password", "pw")]
                     (fst (dao.Register demo_world carol demo_st)) = (st2, inr tt)
    /\ st_session st2 !! "userId" = Some (VInt 3)
    /\ st_session st2 !! "username" = Some (VStr "carol").
Proof.
  apply (Register_then_Login (H := demo_externals) demo_world carol
           [("principal", "carol"); ("password", "pw")] demo_st);
    try reflexivity.
  intros r [<- | [<- | []]]; split; discriminate.
Defined.

Lemma reset_round_trip_witness :
  exists st3 : St,
    controllers.ResetPassword demo_world [("reset_uuid", "uuid-0"); ("password", "new")]
      (fst (controllers.SendResetEmail smtp_down_world [("email", "bob@example.org")]
              demo_st)) = (st3, inr tt)
    /\ In (mkUser 2 "bob" "bob@example.org" "pbkdf2(new,uuid-1)" "Bob" "" 0 ""
                  "uuid-1" 0 1500000000)
          (user_table (st_db st3))
    /\ (forall r, In r (user_table (st_db st3)) -> ResetUUID r <> "uuid-0").
Proof.
  apply (reset_round_trip (H := demo_externals) smtp_down_world demo_world
           [("email", "bob@example.org")]
           [("reset_uuid", "uuid-0"); ("password", "new")] demo_st bob []);
    try reflexivity; try discriminate.
  intros r [<- | [<- | []]]; discriminate.
Defined.

Lemma Oauth_rejects_unverified_token_witness :
  controllers.Oauth demo_world [("code", "not-a-jwt")] demo_st =
    (demo_st, inl (mkAbort 500 "error parsing oauth response")).
Proof.
  apply (Oauth_rejects_unverified_token (H := demo_externals) demo_world
           [("code", "not-a-jwt")] demo_st demo_conf "not-a-jwt");
    [ reflexivity | reflexivity | reflexivity | left; reflexivity ].
Defined.
